(** * nose.plugins.doctests: discovery and addressing of doctest cases

    A shallow embedding of [src/nose/plugins/doctests.py]: the eligibility
    predicates [Doctest.matches] and [Doctest.wantFile], the three loaders
    [loadTestsFromModule], [loadTestsFromFile] and [makeTest], the suite class
    [DoctestSuite] and the [address] methods of [DocTestCase] and
    [DocFileCase].

    What the plugin calls but does not define (the [re] engine, the doctest
    finder and parser, [os.path], [open], [__import__], and the helpers of
    [nose.util]) enters as section variables. *)

From Stdlib Require Import List String Ascii Bool Arith ZArith Lia Permutation.
From Stdlib Require Import Sorted.
From Stdlib Require OrderedTypeEx.
Import ListNotations.
Open Scope string_scope.

Set Implicit Arguments.
Set Warnings "-register-all".

(** ** Python strings *)

Module Py.

(** [s.endswith(suffix)] *)
Definition endswith (s suffix : string) : bool :=
  let n := String.length s in
  let k := String.length suffix in
  (k <=? n)%nat && String.eqb (substring (n - k) k s) suffix.

(** One pass of [s.split(sep)] for a one-character separator: [cur] holds the
    characters of the piece being read, last one first. *)
Fixpoint split_from (sep : ascii) (cur : string) (s : string) : list string :=
  match s with
  | EmptyString => [cur]
  | String c rest =>
      if Ascii.eqb c sep then cur :: split_from sep EmptyString rest
      else split_from sep (cur ++ String c EmptyString) rest
  end.

(** [s.split('.')]: never the empty list; [''.split('.') == ['']]. *)
Definition split (sep : ascii) (s : string) : list string :=
  split_from sep EmptyString s.

(** [sep.join(parts)] *)
Definition join (sep : string) (parts : list string) : string :=
  String.concat sep parts.

(** [parts[-1]] on a list of strings; [None] stands for IndexError. *)
Definition last_item (parts : list string) : option string :=
  match rev parts with
  | [] => None
  | x :: _ => Some x
  end.

(** [parts[:-1]] *)
Definition but_last (parts : list string) : list string := removelast parts.

End Py.

(** ** Exceptions and results *)

Inductive exn : Type :=
| IOError (path : string)
| ImportError (name : string)
| AttributeError
| TypeError
| ValueError
| OtherError (what : string).

Inductive result (A : Type) : Type :=
| Ok (a : A)
| Raise (e : exn).
Arguments Ok {A} a.
Arguments Raise {A} e.

Definition is_ImportError (e : exn) : bool :=
  match e with ImportError _ => true | _ => false end.

Definition is_AttributeError (e : exn) : bool :=
  match e with AttributeError => true | _ => false end.

(** ** The doctest data model *)

(** [doctest.Example]: one input with its expected output. *)
Record Example : Type := mkExample {
  source : string;
  want : string
}.

(** [doctest.DocTest]: a block of examples with its name and place. *)
Record DocTest : Type := mkDocTest {
  examples : list Example;
  globs : list (string * string);
  name : string;
  filename : option string;
  lineno : option Z;
  docstring : string
}.

(** A module object, as far as the plugin reads it. A module that was not
    loaded from a file (a built-in one) has no [__file__] attribute: [None].
    [Some v] is the attribute with its value [v], which may be Python's
    [None]. *)
Record Module : Type := mkModule {
  __name__ : string;
  __file__ : option (option string)
}.

(** [module.__file__]: an [AttributeError] when the module has no such
    attribute. *)
Definition get__file__ (module : Module) : result (option string) :=
  match __file__ module with
  | Some v => Ok v
  | None => Raise AttributeError
  end.

(** An address: [(filename, module, call)], each possibly [None]. *)
Definition Address : Type := (option string * option string * option string)%type.

(** ** Interpreter state, and a monad for state and exceptions

    The plugin appends to [sys.path] and writes debug records to its logger;
    both are threaded explicitly. An exception keeps the state reached when it
    was raised. *)

Inductive LogRecord : Type :=
| DoesntWantModule (module : Module)
| CouldNotImport (fixt_mod : string) (e : exn) (path : list string)
| FixtureResolved (fixt_mod : string) (fixture_context : option Module).

Record State : Type := mkState {
  sys_path : list string;
  log : list LogRecord
}.

Definition M (A : Type) : Type := State -> result A * State.

Definition ret {A} (a : A) : M A := fun st => (Ok a, st).

Definition raise {A} (e : exn) : M A := fun st => (Raise e, st).

Definition bind {A B} (c : M A) (k : A -> M B) : M B :=
  fun st =>
    match c st with
    | (Ok a, st') => k a st'
    | (Raise e, st') => (Raise e, st')
    end.

(** [try: c  except E, e: handler e], where [E] is given by [is_E]. *)
Definition try_except {A} (c : M A) (is_E : exn -> bool) (handler : exn -> M A) : M A :=
  fun st =>
    match c st with
    | (Ok a, st') => (Ok a, st')
    | (Raise e, st') => if is_E e then handler e st' else (Raise e, st')
    end.

Definition lift {A} (r : result A) : M A := fun st => (r, st).

(** [sys.path.append(d)] *)
Definition sys_path_append (d : string) : M unit :=
  fun st => (Ok tt, mkState (sys_path st ++ [d]) (log st)).

Definition get_sys_path : M (list string) := fun st => (Ok (sys_path st), st).

(** [log.debug(...)] *)
Definition log_debug (r : LogRecord) : M unit :=
  fun st => (Ok tt, mkState (sys_path st) (log st ++ [r])).

Declare Scope py_scope.
Delimit Scope py_scope with py.
Notation "x <- c ;; k" := (bind c (fun x => k))
  (at level 61, c at next level, right associativity) : py_scope.
Notation "c ;; k" := (bind c (fun _ => k))
  (at level 61, right associativity) : py_scope.

(** ** The case classes *)

(** [class DocFileCase(doctest.DocFileCase)] *)
Module DocFileCase.

Record t : Type := init { _dt_test : DocTest }.

(** [def address(self): return (self._dt_test.filename, None, None)] *)
Definition address (self : t) : Address :=
  (filename (_dt_test self), None, None).

End DocFileCase.

(** [class DocTestCase(doctest.DocTestCase)] *)
Module DocTestCase.

Record t (pyobj : Type) : Type := init {
  _dt_test : DocTest;
  _nose_obj : option pyobj
}.
Arguments init {pyobj} _ _.

Section Address.

Context {pyobj : Type}.
(** [nose.util.test_address], [nose.util.resolve_name], [nose.util.isproperty] *)
Variable test_address : pyobj -> result Address.
Variable resolve_name : string -> result pyobj.
Variable isproperty : pyobj -> bool.

(** ['.'.join([base_addr[2], leaf])]: joining [None] is a [TypeError]. *)
Definition join_call (call : option string) (leaf : string) : result string :=
  match call with
  | Some c => Ok (Py.join "." [c; leaf])
  | None => Raise TypeError
  end.

(** [parts[-1]]; [split] never returns the empty list. *)
Definition leaf_of (parts : list string) : result string :=
  match Py.last_item parts with
  | Some x => Ok x
  | None => Raise (OtherError "IndexError")
  end.

Definition address (self : t pyobj) : result Address :=
  match _nose_obj self with
  | Some obj => test_address obj
  | None =>
      match resolve_name (name (_dt_test self)) with
      | Raise e => Raise e
      | Ok obj =>
          if isproperty obj then
            let parts := Py.split "." (name (_dt_test self)) in
            let class_name := Py.join "." (Py.but_last parts) in
            match resolve_name class_name with
            | Raise e => Raise e
            | Ok cls =>
                match test_address cls with
                | Raise e => Raise e
                | Ok (base_addr0, base_addr1, base_addr2) =>
                    match leaf_of parts with
                    | Raise e => Raise e
                    | Ok leaf =>
                        match join_call base_addr2 leaf with
                        | Raise e => Raise e
                        | Ok call => Ok (base_addr0, base_addr1, Some call)
                        end
                    end
                end
            end
          else test_address obj
      end
  end.

End Address.

End DocTestCase.

(** ** The suite classes *)

(** [class DoctestSuite(unittest.TestSuite)] *)
Module DoctestSuite.

Record t (T : Type) : Type := mk {
  _tests : list T;
  context : option Module;
  can_split : bool
}.
Arguments mk {T} _ _ _.

(** [def __init__(self, tests=(), context=None, can_split=False)] *)
Definition init {T} (tests : list T) (context : option Module) (can_split : bool) : t T :=
  mk tests context can_split.

(** [def __iter__(self): return iter(self._tests)] *)
Definition iter {T} (self : t T) : list T := _tests self.

End DoctestSuite.

(** Modelled from the spec: [nose.suite.ContextSuite], the Group of section 3
    (an ordered collection of Cases and an execution context); only its
    constructor call [ContextSuite(tests=(case,), context=fixture_context)] is
    in the source. *)
Module ContextSuite.

Record t : Type := init {
  tests : list DocFileCase.t;
  context : option Module
}.

End ContextSuite.

(** ** The order of [tests.sort()]

    [DocTest.__cmp__] compares [(name, filename, lineno, id(self))]; the
    address [id] only breaks ties, which the stable insertion below leaves in
    their order of discovery. [None] sorts before every value. *)

Definition cmp_option {A} (cmp : A -> A -> comparison) (a b : option A) : comparison :=
  match a, b with
  | None, None => Eq
  | None, Some _ => Lt
  | Some _, None => Gt
  | Some x, Some y => cmp x y
  end.

Definition DocTest_cmp (a b : DocTest) : comparison :=
  match String.compare (name a) (name b) with
  | Eq =>
      match cmp_option String.compare (filename a) (filename b) with
      | Eq => cmp_option Z.compare (lineno a) (lineno b)
      | c => c
      end
  | c => c
  end.

Fixpoint insert_sorted (t : DocTest) (l : list DocTest) : list DocTest :=
  match l with
  | [] => [t]
  | x :: rest =>
      match DocTest_cmp t x with
      | Lt => t :: x :: rest
      | _ => x :: insert_sorted t rest
      end
  end.

(** [tests.sort()]: each test, in turn, goes in after the tests sorted so far
    that are not greater. *)
Definition sort (tests : list DocTest) : list DocTest :=
  fold_left (fun acc t => insert_sorted t acc) tests [].

(** Modelled from the spec: [nose.util.anyp], which the source imports and the
    spec reads as "has one of the configured auxiliary extensions": true when
    the predicate holds of at least one item. *)
Definition anyp {A} (predicate : A -> bool) (iterable : list A) : bool :=
  existsb predicate iterable.

Definition is_nil {A} (l : list A) : bool :=
  match l with [] => true | _ => false end.

(** [not test.filename]: [None] and the empty string are false. *)
Definition no_filename (test : DocTest) : bool :=
  match filename test with
  | None => true
  | Some f => f =? ""
  end.

(** [test.filename = module_file] *)
Definition set_filename (test : DocTest) (module_file : option string) : DocTest :=
  mkDocTest (examples test) (globs test) (name test) module_file
            (lineno test) (docstring test).

(** ** The plugin *)

Section Plugin.

Context {regex matchobj pyobj Suite : Type}.

(** [pattern.search(string)] of the [re] module *)
Variable search : regex -> string -> option matchobj.
(** [self.finder.find(module)] and [self.finder.find(obj, module=m, name=n)] *)
Variable find_module : Module -> result (list DocTest).
Variable find_obj : pyobj -> option Module -> string -> result (list DocTest).
(** [inspect.getmodule], [getattr(obj, '__name__', ...)] and [str(type(obj))] *)
Variable getmodule : pyobj -> option Module.
Variable getattr_name : pyobj -> option string.
Variable type_str : pyobj -> string.
(** [nose.util.src] *)
Variable src : option string -> option string.
(** [open(filename)] followed by [read()] *)
Variable open_read : string -> result string.
(** [os.path.basename], [os.path.dirname], [os.path.splitext] *)
Variable basename : string -> string.
Variable dirname : string -> string.
Variable splitext : string -> string * string.
(** [__import__(name, ...)] under a given [sys.path] *)
Variable import_ : list string -> string -> result Module.
(** [doctest.DocTestParser().get_examples(string, name)] *)
Variable get_examples : string -> string -> result (list Example).

(** The Python values the eligibility checks compute with. *)
Inductive value : Type :=
| VNone
| VBool (b : bool)
| VStr (s : string)
| VList (l : list value)
| VRegex (r : regex)
| VMatch (m : matchobj).

(** Truth value testing. *)
Definition truthy (v : value) : bool :=
  match v with
  | VNone => false
  | VBool b => b
  | VStr s => negb (s =? "")
  | VList l => negb (is_nil l)
  | VRegex _ => true
  | VMatch _ => true
  end.

(** [a or b], [a and b], [not a] *)
Definition py_or (a b : value) : value := if truthy a then a else b.
Definition py_and (a b : value) : value := if truthy a then b else a.
Definition py_not (a : value) : value := VBool (negb (truthy a)).

Infix "|||" := py_or (at level 50, left associativity).
Infix "&&&" := py_and (at level 40, left associativity).

(** [filter(None, l)] *)
Definition filter_None (l : list value) : value := VList (filter truthy l).

(** A configured list that may be [None], as a value and as an iterable (it
    is iterated only where it tested true). *)
Definition of_patterns (l : option (list regex)) : value :=
  match l with
  | None => VNone
  | Some rs => VList (map VRegex rs)
  end.

Definition of_strings (l : option (list string)) : value :=
  match l with
  | None => VNone
  | Some ss => VList (map VStr ss)
  end.

Definition items {A} (l : option (list A)) : list A :=
  match l with
  | None => []
  | Some xs => xs
  end.

Definition re_search (r : regex) (s : string) : value :=
  match search r s with
  | None => VNone
  | Some m => VMatch m
  end.

(** [self.conf], as far as the plugin reads it. *)
Record Config : Type := mkConfig {
  testMatch : regex;
  include : option (list regex);
  exclude : option (list regex)
}.

(** The configured plugin. *)
Record Doctest : Type := mkDoctest {
  doctest_tests : value;
  extension : option (list string);
  fixtures : option string;
  suiteClass : list (DocTestCase.t pyobj) -> option Module -> bool -> Suite;
  conf : Config
}.

Definition matches (self : Doctest) (name : string) : value :=
  if name =? "__init__.py" then VBool false
  else
    (doctest_tests self
       ||| py_not (re_search (testMatch (conf self)) name)
       ||| (of_patterns (include (conf self))
              &&& filter_None (map (fun inc => re_search inc name)
                                   (items (include (conf self))))))
    &&& (py_not (of_patterns (exclude (conf self)))
           ||| py_not (filter_None (map (fun exc => re_search exc name)
                                        (items (exclude (conf self)))))).

Definition wantFile (self : Doctest) (file : string) : value :=
  if Py.endswith file ".py" then VBool true
  else if truthy
            (of_strings (extension self)
               &&& VBool (anyp (Py.endswith file) (items (extension self)))
               &&& (py_not (of_patterns (exclude (conf self)))
                      ||| py_not (filter_None (map (fun exc => re_search exc file)
                                                   (items (exclude (conf self)))))))
  then VBool true
  else VNone.

(** The loop of [loadTestsFromModule]:
[[
        for test in tests:
            if not test.examples:
                continue
            if not test.filename:
                test.filename = module_file
            cases.append(DocTestCase(test))
]] *)
Fixpoint module_cases (module_file : option string) (tests : list DocTest)
  : list (DocTestCase.t pyobj) :=
  match tests with
  | [] => []
  | test :: rest =>
      if is_nil (examples test) then module_cases module_file rest
      else
        let test := if no_filename test then set_filename test module_file else test in
        DocTestCase.init test None :: module_cases module_file rest
  end.

Local Open Scope py_scope.

(** A generator: the list holds what it yields, nothing or one suite. *)
Definition loadTestsFromModule (self : Doctest) (module : Module) : M (list Suite) :=
  if negb (truthy (matches self (__name__ module))) then
    log_debug (DoesntWantModule module) ;;
    ret []
  else
    found <- try_except (tests <- lift (find_module module) ;; ret (Some tests))
                        is_AttributeError (fun _ => ret None) ;;
    match found with
    | None => ret []
    | Some tests =>
        if is_nil tests then ret []
        else
          let tests := sort tests in
          file <- lift (get__file__ module) ;;
          let module_file := src file in
          let cases := module_cases module_file tests in
          if is_nil cases then ret []
          else ret [suiteClass self cases (Some module) false]
    end.

(** What [loadTestsFromFile] yields: a suite, a bare case, or [False]. *)
Inductive FileYield : Type :=
| YieldSuite (s : ContextSuite.t)
| YieldCase (c : DocFileCase.t)
| YieldFalse.

(** [parser.get_doctest(string, globs, name, filename, lineno)] builds
    [DocTest(self.get_examples(string, name), globs, name, filename, lineno, string)]. *)
Definition get_doctest (doc : string) (globs : list (string * string))
    (name filename : string) (lineno : Z) : result DocTest :=
  match get_examples doc name with
  | Raise e => Raise e
  | Ok exs => Ok (mkDocTest exs globs name (Some filename) (Some lineno) doc)
  end.

(** The fixture lookup of [loadTestsFromFile], lines 180-193: [if
    self.fixtures:] fails for [None] and for the empty suffix. *)
Definition fixture_lookup (self : Doctest) (name filename : string) : M (option Module) :=
  match fixtures self with
  | Some suffix =>
      if truthy (VStr suffix) then
        let '(base, ext) := splitext name in
        let dirname := dirname filename in
        sys_path_append dirname ;;
        let fixt_mod := base ++ suffix in
        fixture_context <-
          try_except (path <- get_sys_path ;;
                      m <- lift (import_ path fixt_mod) ;;
                      ret (Some m))
                     is_ImportError
                     (fun e =>
                        path <- get_sys_path ;;
                        log_debug (CouldNotImport fixt_mod e path) ;;
                        ret None) ;;
        log_debug (FixtureResolved fixt_mod fixture_context) ;;
        ret fixture_context
      else ret None
  | None => ret None
  end.

(** A generator: the list holds what it yields. [if fixture_context:] tests a
    module object, which is true, or [None]. *)
Definition loadTestsFromFile (self : Doctest) (filename : string) : M (list FileYield) :=
  if truthy (of_strings (extension self)
               &&& VBool (anyp (Py.endswith filename) (items (extension self))))
  then
    let name := basename filename in
    doc <- lift (open_read filename) ;;
    fixture_context <- fixture_lookup self name filename ;;
    test <- lift (get_doctest doc [("__file__", filename)] name filename 0) ;;
    if negb (is_nil (examples test)) then
      let case := DocFileCase.init test in
      match fixture_context with
      | Some m => ret [YieldSuite (ContextSuite.init [case] (Some m))]
      | None => ret [YieldCase case]
      end
    else ret [YieldFalse]
  else ret [].

(** The loop of [makeTest]:
[[
            for test in doctests:
                if len(test.examples) == 0:
                    continue
                yield DocTestCase(test, obj=obj)
]] *)
Fixpoint object_cases (obj : pyobj) (doctests : list DocTest)
  : list (DocTestCase.t pyobj) :=
  match doctests with
  | [] => []
  | test :: rest =>
      if (List.length (examples test) =? 0)%nat then object_cases obj rest
      else DocTestCase.init test (Some obj) :: object_cases obj rest
  end.

Definition makeTest (self : Doctest) (obj parent : pyobj)
  : M (list (DocTestCase.t pyobj)) :=
  let name :=
    match getattr_name obj with
    | Some n => n
    | None => "Unnammed " ++ type_str obj
    end in
  doctests <- lift (find_obj obj (getmodule parent) name) ;;
  if negb (is_nil doctests) then ret (object_cases obj doctests)
  else ret [].

End Plugin.

(** ** Names for the statements about extraction *)

(** The block has at least one example. *)
Definition has_examples (test : DocTest) : bool := negb (is_nil (examples test)).

(** The filename backfill of [loadTestsFromModule], lines 165-166. *)
Definition backfill (module_file : option string) (test : DocTest) : DocTest :=
  if no_filename test then set_filename test module_file else test.

(** The Cases the specification expects from a whole-module scan: one per
    block with examples, in the order given. *)
Definition surviving_cases {pyobj : Type} (module_file : option string)
    (tests : list DocTest) : list (DocTestCase.t pyobj) :=
  map (fun t => DocTestCase.init (backfill module_file t) None)
      (filter has_examples tests).

(** The same plugin with no fixture suffix configured. *)
Definition without_fixtures {regex matchobj pyobj Suite : Type}
    (self : @Doctest regex matchobj pyobj Suite) : Doctest :=
  mkDoctest (doctest_tests self) (extension self) None (suiteClass self) (conf self).

(** The one block of a text file, as [loadTestsFromFile] has it parsed. *)
Definition file_block (basename : string -> string) (filename doc : string)
    (exs : list Example) : DocTest :=
  mkDocTest exs [("__file__", filename)] (basename filename) (Some filename)
            (Some 0%Z) doc.

(** The name of the fixture module of a file: its base name without the
    extension, followed by the configured suffix. *)
Definition fixture_module_name (basename : string -> string)
    (splitext : string -> string * string) (suffix filename : string) : string :=
  fst (splitext (basename filename)) ++ suffix.

(** ** The eligibility rules in the words of the specification (section 4.1)

    Boolean readings of "matches at least one pattern", "is wanted", against
    which [matches] and [wantFile] are compared. *)

Section Rules.

Context {regex matchobj pyobj Suite : Type}.
Variable search : regex -> string -> option matchobj.

Definition found (r : regex) (s : string) : bool :=
  match search r s with
  | Some _ => true
  | None => false
  end.

(** The name matches at least one of the configured patterns. *)
Definition matches_some (patterns : option (list regex)) (s : string) : bool :=
  existsb (fun r => found r s) (items patterns).

(** A module name is wanted if the also-scan flag is set, or the name does
    not look like a test module, or it matches an include pattern; and it
    matches no exclude pattern. *)
Definition spec_wantsModule (self : @Doctest regex matchobj pyobj Suite)
    (name : string) : bool :=
  (truthy (doctest_tests self)
   || negb (found (testMatch (conf self)) name)
   || matches_some (include (conf self)) name)
  && negb (matches_some (exclude (conf self)) name).

(** The filename has one of the configured auxiliary extensions. *)
Definition has_extension (self : @Doctest regex matchobj pyobj Suite)
    (file : string) : bool :=
  existsb (Py.endswith file) (items (extension self)).

(** A filename is wanted if it has the primary extension, or it has an
    auxiliary extension and matches no exclude pattern. *)
Definition spec_wantsFile (self : @Doctest regex matchobj pyobj Suite)
    (file : string) : bool :=
  Py.endswith file ".py"
  || (has_extension self file && negb (matches_some (exclude (conf self)) file)).

End Rules.

(** ** A small world to run the plugin in

    Patterns are plain substrings, objects are the four entities of a module
    [pkg.mod] with a function [f] and a class [C] with a property [p], and the
    text files are [docs/guide.txt], with its fixture module [guide_fixt],
    [docs/intro.txt], with none, and the empty [docs/empty.txt]. *)

Module Demo.

Definition search (r s : string) : option nat := String.index 0 r s.

Inductive obj : Type := TheModule | FunF | ClassC | PropP.

Definition pkg_mod : Module := mkModule "pkg.mod" (Some (Some "pkg/mod.pyc")).
Definition guide_fixt : Module :=
  mkModule "guide_fixt" (Some (Some "docs/guide_fixt.py")).

Definition one_plus_one : Example := mkExample "1+1" "2".

Definition test_f : DocTest :=
  mkDocTest [one_plus_one] [] "pkg.mod.f" None (Some 3%Z) "f".
Definition test_C : DocTest :=
  mkDocTest [] [] "pkg.mod.C" (Some "pkg/mod.py") (Some 9%Z) "C".
Definition test_p : DocTest :=
  mkDocTest [one_plus_one] [] "pkg.mod.C.p" (Some "pkg/mod.py") (Some 12%Z) "p".

Definition find_module (m : Module) : result (list DocTest) :=
  if __name__ m =? "pkg.mod" then Ok [test_p; test_f; test_C] else Ok [].

Definition find_obj (o : obj) (m : option Module) (n : string)
  : result (list DocTest) :=
  match o with
  | FunF => Ok [test_f]
  | ClassC => Ok [test_C; test_p]
  | _ => Ok []
  end.

Definition getmodule (o : obj) : option Module := Some pkg_mod.

Definition getattr_name (o : obj) : option string :=
  match o with
  | TheModule => Some "pkg.mod"
  | FunF => Some "f"
  | ClassC => Some "C"
  | PropP => None
  end.

Definition type_str (o : obj) : string := "<type 'property'>".

Definition src (f : option string) : option string :=
  match f with
  | Some "pkg/mod.pyc" => Some "pkg/mod.py"
  | other => other
  end.

Definition open_read (f : string) : result string :=
  if f =? "docs/guide.txt" then Ok ">>> 1+1"
  else if f =? "docs/intro.txt" then Ok ">>> 1+1"
  else if f =? "docs/empty.txt" then Ok ""
  else Raise (IOError f).

Definition basename (f : string) : string :=
  if String.prefix "docs/" f then substring 5 (String.length f - 5) f else f.

Definition dirname (f : string) : string :=
  if String.prefix "docs/" f then "docs" else "".

Definition splitext (n : string) : string * string :=
  if Py.endswith n ".txt" then (substring 0 (String.length n - 4) n, ".txt")
  else (n, "").

Definition import_ (path : list string) (n : string) : result Module :=
  if (n =? "guide_fixt") && existsb (String.eqb "docs") path then Ok guide_fixt
  else Raise (ImportError n).

(** An importer under which the fixture module itself is broken. *)
Definition import_broken (path : list string) (n : string) : result Module :=
  Raise (OtherError "SyntaxError").

Definition get_examples (doc n : string) : result (list Example) :=
  if doc =? "" then Ok [] else Ok [one_plus_one].

Definition test_address (o : obj) : result Address :=
  match o with
  | TheModule => Ok (Some "pkg/mod.py", Some "pkg.mod", None)
  | FunF => Ok (Some "pkg/mod.py", Some "pkg.mod", Some "f")
  | ClassC => Ok (Some "pkg/mod.py", Some "pkg.mod", Some "C")
  | PropP => Raise TypeError
  end.

Definition resolve_name (n : string) : result obj :=
  if n =? "pkg.mod" then Ok TheModule
  else if n =? "pkg.mod.f" then Ok FunF
  else if n =? "pkg.mod.C" then Ok ClassC
  else if n =? "pkg.mod.C.p" then Ok PropP
  else Raise (ImportError n).

Definition isproperty (o : obj) : bool :=
  match o with PropP => true | _ => false end.

Definition Suite : Type := DoctestSuite.t (DocTestCase.t obj).

Definition config : @Config string :=
  mkConfig "test" None (Some ["skip"]).

(** Text files enabled, no fixture suffix. *)
Definition plugin : @Doctest string nat obj Suite :=
  mkDoctest VNone (Some [".txt"]) None DoctestSuite.init config.

(** Text files enabled, fixtures in [<base>_fixt]. *)
Definition plugin_fixt : @Doctest string nat obj Suite :=
  mkDoctest VNone (Some [".txt"]) (Some "_fixt") DoctestSuite.init config.

Definition st0 : State := mkState ["."] [].

End Demo.

(** * The rest of the two files *)

(** ** [nose.plugins.plugintest]: the helpers that normalise a run's output *)

Section OutputHelpers.

(** The characters [str.splitlines] takes as line boundaries and the ones
    [str.strip] takes as whitespace; which they are depends on the string
    type and is left open. *)
Variable is_break : ascii -> bool.
Variable is_space : ascii -> bool.
(** [traceback_re.sub(...)], [warn_re.sub(...)] and the [re.sub] of
    [remove_timings], each with its replacement text *)
Variable traceback_sub : string -> string.
Variable warn_sub : string -> string.
Variable timing_sub : string -> string.

(** [text.splitlines(True)]: [cur] is the line being read. A carriage return
    followed by a line feed ends one line, not two; the line ends are kept. *)
Fixpoint splitlines_from (cur : string) (text : string) : list string :=
  match text with
  | EmptyString => if cur =? "" then [] else [cur]
  | String c rest =>
      if is_break c then
        match rest with
        | String c' rest' =>
            if Ascii.eqb c "013" && Ascii.eqb c' "010" then
              (cur ++ String c (String c' EmptyString)) :: splitlines_from EmptyString rest'
            else (cur ++ String c EmptyString) :: splitlines_from EmptyString rest
        | EmptyString => (cur ++ String c EmptyString) :: splitlines_from EmptyString rest
        end
      else splitlines_from (cur ++ String c EmptyString) rest
  end.

Definition splitlines (text : string) : list string :=
  splitlines_from EmptyString text.

(** [s.lstrip()], [s.rstrip()], [s.strip()] *)
Fixpoint lstrip (s : string) : string :=
  match s with
  | EmptyString => EmptyString
  | String c rest => if is_space c then lstrip rest else s
  end.

Fixpoint rstrip (s : string) : string :=
  match s with
  | EmptyString => EmptyString
  | String c rest =>
      match rstrip rest with
      | EmptyString => if is_space c then EmptyString else String c EmptyString
      | kept => String c kept
      end
  end.

Definition strip (s : string) : string := rstrip (lstrip s).

(** [not line.strip()] *)
Definition is_blank (line : string) : bool := strip line =? "".

(** The loop of [blankline_separated_blocks], with what it yields:
[[
    for line in text.splitlines(True):
        block.append(line)
        if not line.strip():
            yield "".join(block)
            block = []
    if block:
        yield "".join(block)
]] *)
Fixpoint blocks_from (block : list string) (lines : list string) : list string :=
  match lines with
  | [] => if is_nil block then [] else [Py.join "" block]
  | line :: rest =>
      let block := (block ++ [line])%list in
      if is_blank line then Py.join "" block :: blocks_from [] rest
      else blocks_from block rest
  end.

Definition blankline_separated_blocks (text : string) : list string :=
  blocks_from [] (splitlines text).

(** [blocks.append(traceback_re.sub(..., block))] for each block, then
    ["".join(blocks)] *)
Definition remove_stack_traces (out : string) : string :=
  Py.join "" (map traceback_sub (blankline_separated_blocks out)).

Definition simplify_warnings (out : string) : string := warn_sub out.

Definition remove_timings (out : string) : string := timing_sub out.

Definition munge_nose_output_for_doctest (out : string) : string :=
  let out := remove_stack_traces out in
  let out := simplify_warnings out in
  let out := remove_timings out in
  strip out.

(** Names for the statements: a line that is not blank, the lines a block is
    made of when it was closed by a blank line, and when the text ended
    before one came. *)
Definition not_blank (line : string) : Prop := is_blank line = false.

Definition closed_block (lines : list string) : Prop :=
  exists body blank,
    lines = (body ++ [blank])%list /\ Forall not_blank body /\ is_blank blank = true.

Definition open_block (lines : list string) : Prop :=
  lines <> [] /\ Forall not_blank lines.

(** [s[0]] and [s[-1]], where they exist. *)
Definition first_char (s : string) : option ascii :=
  match s with
  | EmptyString => None
  | String c _ => Some c
  end.

Fixpoint last_char (s : string) : option ascii :=
  match s with
  | EmptyString => None
  | String c EmptyString => Some c
  | String _ rest => last_char rest
  end.

End OutputHelpers.

(** ** [doctests]: identity of a Case, address of a suite *)

Section CaseIdentity.

Context {pyobj : Type}.
(** [nose.util.getpackage]; it may return [None], which [str.startswith]
    refuses with a [TypeError]. *)
Variable getpackage : string -> option string.

(** [DocTestCase.id] *)
Definition DocTestCase_id (self : DocTestCase.t pyobj) : result string :=
  let name := name (DocTestCase._dt_test self) in
  match filename (DocTestCase._dt_test self) with
  | Some filename =>
      match getpackage filename with
      | Some pk =>
          if negb (String.prefix pk name) then Ok (pk ++ "." ++ name)
          else Ok name
      | None => Raise TypeError
      end
  | None => Ok name
  end.

(** [DocTestCase.__repr__], also [__str__] *)
Definition DocTestCase_repr (self : DocTestCase.t pyobj) : result string :=
  match DocTestCase_id self with
  | Raise e => Raise e
  | Ok name =>
      let name := Py.split "." name in
      match Py.last_item name with
      | Some leaf => Ok (leaf ++ " (" ++ Py.join "." (Py.but_last name) ++ ")")
      | None => Raise (OtherError "IndexError")
      end
  end.

(** [DocTestCase.shortDescription] *)
Definition DocTestCase_shortDescription (self : DocTestCase.t pyobj) : result string :=
  match DocTestCase_id self with
  | Raise e => Raise e
  | Ok name => Ok ("Doctest: " ++ name)
  end.

(** The same Case with another name on its block. *)
Definition renamed (self : DocTestCase.t pyobj) (n : string) : DocTestCase.t pyobj :=
  let t := DocTestCase._dt_test self in
  DocTestCase.init
    (mkDocTest (examples t) (globs t) n (filename t) (lineno t) (docstring t))
    (DocTestCase._nose_obj self).

End CaseIdentity.

(** [DoctestSuite.address]: [return test_address(self.context)]; the context
    may be [None]. *)
Definition DoctestSuite_address {T : Type}
    (test_address : option Module -> result Address)
    (self : DoctestSuite.t T) : result Address :=
  test_address (DoctestSuite.context self).

(** ** [doctests]: the debugger that leaves tracing alone

    [NoseOutputRedirectingPdb] keeps one flag of its own; what it asks of the
    class it extends, [doctest._OutputRedirectingPdb], is recorded as a list
    of calls. [Bdb.set_continue], reached through [OrpSetContinue], is the
    call that switches tracing off. *)

Inductive OrpCall : Type :=
| OrpInit
| OrpSetTrace
| OrpSetContinue.

Record NoseOutputRedirectingPdb : Type := mkPdb {
  __debugger_used : bool;
  base_calls : list OrpCall
}.

(** [__init__(self, out)] *)
Definition Pdb_init : NoseOutputRedirectingPdb :=
  mkPdb false [OrpInit].

(** [set_trace(self)] *)
Definition Pdb_set_trace (self : NoseOutputRedirectingPdb) : NoseOutputRedirectingPdb :=
  mkPdb true (base_calls self ++ [OrpSetTrace]).

(** [set_continue(self)] *)
Definition Pdb_set_continue (self : NoseOutputRedirectingPdb) : NoseOutputRedirectingPdb :=
  if __debugger_used self
  then mkPdb (__debugger_used self) (base_calls self ++ [OrpSetContinue])
  else self.

(** A use of the object: any sequence of calls of its two methods. *)
Inductive PdbMethod : Type := CallSetTrace | CallSetContinue.

Definition Pdb_call (self : NoseOutputRedirectingPdb) (m : PdbMethod)
  : NoseOutputRedirectingPdb :=
  match m with
  | CallSetTrace => Pdb_set_trace self
  | CallSetContinue => Pdb_set_continue self
  end.

Definition Pdb_run (calls : list PdbMethod) : NoseOutputRedirectingPdb :=
  fold_left Pdb_call calls Pdb_init.

(** What holds of the object after any calls: the flag is set exactly when
    the base class was asked to trace, and it was asked to continue only
    after that. *)
Definition Pdb_guarded (p : NoseOutputRedirectingPdb) : Prop :=
  (__debugger_used p = true <-> In OrpSetTrace (base_calls p))
  /\ (forall pre post,
        base_calls p = (pre ++ OrpSetContinue :: post)%list ->
        In OrpSetTrace pre).

(** The order of two blocks, and of two Cases, by the names of the blocks. *)
Definition block_name_le (a b : DocTest) : Prop :=
  String.leb (name a) (name b) = true.

Definition case_name_le {pyobj : Type} (a b : DocTestCase.t pyobj) : Prop :=
  block_name_le (DocTestCase._dt_test a) (DocTestCase._dt_test b).

(** ** [plugintest.AccessDecorator] over an in-memory stream *)

(** A [StringIO]: its text and the position of the next read. *)
Record StringIO : Type := mkStringIO {
  getvalue : string;
  tell : nat
}.

(** [stream.seek(0)] *)
Definition seek0 (stream : StringIO) : StringIO := mkStringIO (getvalue stream) 0.

(** [stream.read()]: the text from the position to the end; the position
    moves to the end. *)
Definition read (stream : StringIO) : string * StringIO :=
  let n := String.length (getvalue stream) in
  (substring (tell stream) (n - tell stream) (getvalue stream),
   mkStringIO (getvalue stream) (Nat.max (tell stream) n)).

Record AccessDecorator : Type := mkAccessDecorator {
  stream : StringIO;
  _buf : string
}.

(** [AccessDecorator.__init__]: rewind, read all, rewind. *)
Definition AccessDecorator_init (stream : StringIO) : AccessDecorator :=
  let stream := seek0 stream in
  let '(buf, stream) := read stream in
  let stream := seek0 stream in
  mkAccessDecorator stream buf.

(** [__contains__]: [val in self._buf] *)
Definition AccessDecorator_contains (self : AccessDecorator) (val : string) : bool :=
  match String.index 0 val (_buf self) with
  | Some _ => true
  | None => false
  end.

(** [__str__] *)
Definition AccessDecorator_str (self : AccessDecorator) : string := _buf self.

(** ** [plugintest.run] and [run_buffered] *)

(** File-like objects are known by a handle; the interpreter has its two
    standard streams, the text written to each object, and the next handle
    [StringIO()] gives out. *)
Definition Stream : Type := nat.

Record World : Type := mkWorld {
  sys_stdout : Stream;
  sys_stderr : Stream;
  written : Stream -> string;
  next_stream : Stream
}.

Definition W (A : Type) : Type := World -> result A * World.

Definition retW {A} (a : A) : W A := fun w => (Ok a, w).

Definition bindW {A B} (c : W A) (k : A -> W B) : W B :=
  fun w =>
    match c w with
    | (Ok a, w') => k a w'
    | (Raise e, w') => (Raise e, w')
    end.

(** [try: c  finally: cleanup]: the cleanup runs either way, and the outcome
    of [c] stands unless the cleanup itself raises. *)
Definition try_finally {A} (c : W A) (cleanup : W unit) : W A :=
  fun w =>
    match c w with
    | (r, w') =>
        match cleanup w' with
        | (Ok _, w'') => (r, w'')
        | (Raise e, w'') => (Raise e, w'')
        end
    end.

Declare Scope world_scope.
Delimit Scope world_scope with world.
Notation "x <- c ;; k" := (bindW c (fun x => k))
  (at level 61, c at next level, right associativity) : world_scope.
Notation "c ;; k" := (bindW c (fun _ => k))
  (at level 61, right associativity) : world_scope.

(** [StringIO()] *)
Definition new_StringIO : W Stream :=
  fun w =>
    let b := next_stream w in
    (Ok b,
     mkWorld (sys_stdout w) (sys_stderr w)
             (fun s => if Nat.eqb s b then "" else written w s)
             (S b)).

(** [buffer.getvalue()] *)
Definition stream_getvalue (b : Stream) : W string :=
  fun w => (Ok (written w b), w).

Definition get_stdout : W Stream := fun w => (Ok (sys_stdout w), w).
Definition get_stderr : W Stream := fun w => (Ok (sys_stderr w), w).

(** [sys.stdout = s] and [sys.stderr = s] *)
Definition set_stdout (s : Stream) : W unit :=
  fun w => (Ok tt, mkWorld s (sys_stderr w) (written w) (next_stream w)).
Definition set_stderr (s : Stream) : W unit :=
  fun w => (Ok tt, mkWorld (sys_stdout w) s (written w) (next_stream w)).

(** [print(text)]: the text and a newline go to whatever [sys.stdout] is. *)
Definition print (text : string) : W unit :=
  fun w =>
    let out := sys_stdout w in
    (Ok tt,
     mkWorld (sys_stdout w) (sys_stderr w)
             (fun s => if Nat.eqb s out then written w s ++ text ++ String "010" ""
                       else written w s)
             (next_stream w)).

(** The world [w'] with the standard streams of [w] put back. *)
Definition restored (w w' : World) : World :=
  mkWorld (sys_stdout w) (sys_stderr w) (written w') (next_stream w').

Section Run.

(** What [nose] supplies: plugins, the plugin manager, environments, the
    settings of a [Config] other than its stream, and positional arguments. *)
Context {plugin manager env settings args : Type}.

(** [kw['plugins']] is a list of plugins or a manager already. *)
Inductive PluginsArg : Type :=
| PluginList (l : list plugin)
| Manager (m : manager).

(** A [nose.config.Config], as far as [run] touches it. *)
Record NoseConfig : Type := mkNoseConfig {
  config_settings : settings;
  config_stream : option Stream
}.

(** The keyword arguments [run] looks at; a key that is absent is [None]. *)
Record Kw : Type := mkKw {
  kw_config : option NoseConfig;
  kw_plugins : option PluginsArg;
  kw_env : option env;
  kw_argv : option (list string);
  kw_buffer_all : option bool
}.

(** [PluginManager(plugins=l)], [{}], [Config(env=e, plugins=m)] *)
Variable PluginManager : list plugin -> manager.
Variable empty_env : env.
Variable Config : env -> manager -> NoseConfig.
(** [nose.run] with its arguments, and [warnings.warn] of a
    [DeprecationWarning] *)
Variable nose_run : args -> Kw -> W unit.
Variable warn : string -> W unit.
(** [munge_nose_output_for_doctest] *)
Variable munge : string -> string.

(** Lines 213-221 of [run]: the keywords are completed, and the Config, the
    caller's or a new one, gets the buffer as its stream. *)
Definition run_keywords (buffer : Stream) (kw : Kw) : Kw :=
  let kw :=
    match kw_config kw with
    | None =>
        let plugins :=
          match kw_plugins kw with
          | Some p => p
          | None => PluginList []
          end in
        let plugins :=
          match plugins with
          | PluginList l => PluginManager l
          | Manager m => m
          end in
        let env :=
          match kw_env kw with
          | Some e => e
          | None => empty_env
          end in
        mkKw (Some (Config env plugins)) None None (kw_argv kw) (kw_buffer_all kw)
    | Some _ => kw
    end in
  let kw :=
    match kw_argv kw with
    | None =>
        mkKw (kw_config kw) (kw_plugins kw) (kw_env kw)
             (Some ["nosetests"; "-v"]) (kw_buffer_all kw)
    | Some _ => kw
    end in
  mkKw (option_map (fun c => mkNoseConfig (config_settings c) (Some buffer))
                   (kw_config kw))
       (kw_plugins kw) (kw_env kw) (kw_argv kw) (kw_buffer_all kw).

(** [kw.pop('buffer_all', False)] *)
Definition pop_buffer_all (kw : Kw) : bool * Kw :=
  (match kw_buffer_all kw with
   | Some b => b
   | None => false
   end,
   mkKw (kw_config kw) (kw_plugins kw) (kw_env kw) (kw_argv kw) None).

Definition deprecation_message : string :=
  "The behavior of nose.plugins.plugintest.run() will change in "
  ++ "the next release of nose. The current behavior does not "
  ++ "correctly account for output to stdout and stderr. To enable "
  ++ "correct behavior, use run_buffered() instead, or pass "
  ++ "the keyword argument buffer_all=True to run().".

Local Open Scope world_scope.

Definition run (arg : args) (kw : Kw) : W unit :=
  buffer <- new_StringIO ;;
  let kw := run_keywords buffer kw in
  stderr <- get_stderr ;;
  stdout <- get_stdout ;;
  let '(buffer_all, kw) := pop_buffer_all kw in
  restore <- (if buffer_all then
                set_stdout buffer ;; set_stderr buffer ;; retW true
              else
                warn deprecation_message ;; retW false) ;;
  try_finally (nose_run arg kw)
              (if restore : bool then set_stderr stderr ;; set_stdout stdout
               else retW tt) ;;
  out <- stream_getvalue buffer ;;
  print (munge out).

(** The keywords [nose.run] is meant to get: a Config that writes to the
    buffer, an [argv], and no [buffer_all]. *)
Definition normal_kw (buffer : Stream) (kw : Kw) : Prop :=
  (exists c, kw_config kw = Some c /\ config_stream c = Some buffer)
  /\ kw_argv kw <> None
  /\ kw_buffer_all kw = None.

(** [run_buffered]: [kw['buffer_all'] = True], then [run]. *)
Definition run_buffered (arg : args) (kw : Kw) : W unit :=
  run arg (mkKw (kw_config kw) (kw_plugins kw) (kw_env kw) (kw_argv kw) (Some true)).

End Run.

(** ** More of the small world *)

Module Sample.

(** Line feed and carriage return end a line; blanks are the six ASCII
    whitespace characters. *)
Definition is_break (c : ascii) : bool :=
  Ascii.eqb c "010" || Ascii.eqb c "013".

Definition is_space (c : ascii) : bool :=
  Ascii.eqb c " " || Ascii.eqb c "009" || Ascii.eqb c "010"
  || Ascii.eqb c "011" || Ascii.eqb c "012" || Ascii.eqb c "013".

Definition nl : string := String "010" "".

(** The output of a run with no traceback in it. *)
Definition report : string :=
  "test_a ... ok" ++ nl ++ nl ++ "Ran 1 test in 0.003s" ++ nl ++ nl ++ "OK" ++ nl.

(** A substitution that shortens the blocks that start as a traceback does,
    and leaves the others as they are. *)
Definition traceback_sub (block : string) : string :=
  if String.prefix "Traceback" block then "Traceback (most recent call last):" ++ nl
  else block.

(** Files under [pkg/] belong to the package [pkg]. *)
Definition getpackage (f : string) : option string :=
  if String.prefix "pkg/" f then Some "pkg.mod" else None.

Definition case_f : DocTestCase.t Demo.obj :=
  DocTestCase.init
    (mkDocTest [Demo.one_plus_one] [] "f" (Some "pkg/mod.py") (Some 3%Z) "f") None.

Definition case_p : DocTestCase.t Demo.obj :=
  DocTestCase.init Demo.test_p None.

(** A finder that fails the way [doctest] does on [module.__test__ = False]. *)
Definition find_opted_out (m : Module) : result (list DocTest) :=
  Raise AttributeError.

Definition test_mod : Module := mkModule "test_mod" (Some (Some "test_mod.py")).

(** A built-in module, with no [__file__], and a finder that returns for it
    one block with no example. *)
Definition builtin_mod : Module := mkModule "zlib" None.

Definition find_empty_block (m : Module) : result (list DocTest) :=
  Ok [Demo.test_C].

(** A run of nose that writes its report to the stream of its Config, leaves
    both standard streams pointing elsewhere, and fails. *)
Definition kw_in : @Kw unit unit unit unit :=
  mkKw None None None None (Some true).

Definition nose_run_failing (a : unit) (kw : @Kw unit unit unit unit) : W unit :=
  fun w =>
    let target :=
      match kw_config kw with
      | Some c => match config_stream c with Some s => s | None => 0 end
      | None => 0
      end in
    (Raise (OtherError "SystemExit"),
     mkWorld 77 78
             (fun s => if Nat.eqb s target then written w s ++ report
                       else written w s)
             (next_stream w)).

Definition nose_run_ok (a : unit) (kw : @Kw unit unit unit unit) : W unit :=
  fun w =>
    let target :=
      match kw_config kw with
      | Some c => match config_stream c with Some s => s | None => 0 end
      | None => 0
      end in
    (Ok tt,
     mkWorld (sys_stdout w) (sys_stderr w)
             (fun s => if Nat.eqb s target then written w s ++ report
                       else written w s)
             (next_stream w)).

Definition warn (msg : string) : W unit := fun w => (Ok tt, w).

(** Warnings turned into errors. *)
Definition warn_error (msg : string) : W unit :=
  fun w => (Raise (OtherError "DeprecationWarning"), w).

(** A [nose.run] that refuses keywords it does not know. *)
Definition nose_run_strict (a : unit) (kw : @Kw unit unit unit unit) : W unit :=
  match kw_buffer_all kw with
  | None => nose_run_ok a kw
  | Some _ => fun w => (Raise TypeError, w)
  end.

Definition kw_plain : @Kw unit unit unit unit :=
  mkKw None None None None None.

Definition new_config (e m : unit) : @NoseConfig unit :=
  mkNoseConfig tt None.

Definition munge : string -> string :=
  munge_nose_output_for_doctest is_break is_space traceback_sub
                                (fun out => out) (fun out => out).

Definition w0 : World := mkWorld 1 2 (fun _ => "") 3.

End Sample.

(** * Properties *)

(** ** Eligibility: [matches] and [wantFile] *)

Section EligibilityFacts.

Context {regex matchobj pyobj Suite : Type}.
Variable search : regex -> string -> option matchobj.

Implicit Types (self : @Doctest regex matchobj pyobj Suite) (name file : string).

Lemma truthy_py_or (a b : @value regex matchobj) :
  truthy (py_or a b) = truthy a || truthy b.
Proof.
  unfold py_or. destruct (truthy a) eqn:Ha; [ now rewrite Ha | reflexivity ].
Qed.

Lemma truthy_py_and (a b : @value regex matchobj) :
  truthy (py_and a b) = truthy a && truthy b.
Proof.
  unfold py_and. destruct (truthy a) eqn:Ha; [ reflexivity | now rewrite Ha ].
Qed.

Lemma truthy_py_not (a : @value regex matchobj) :
  truthy (py_not a) = negb (truthy a).
Proof. reflexivity. Qed.

Lemma truthy_re_search r s :
  truthy (re_search search r s) = found search r s.
Proof. unfold re_search, found. now destruct (search r s). Qed.

(** [filter(None, [p.search(s) for p in patterns])] is true exactly when some
    pattern is found in [s]. *)
Lemma truthy_filter_search (patterns : list regex) s :
  truthy (filter_None (map (fun p => re_search search p s) patterns))
  = existsb (fun p => found search p s) patterns.
Proof.
  induction patterns as [|p ps IH]; [ reflexivity | ].
  cbn [map existsb]. unfold filter_None in *. cbn [filter].
  rewrite truthy_re_search.
  destruct (found search p s); [ reflexivity | exact IH ].
Qed.

(** [patterns and filter(None, ...)]: the guard on the list adds nothing. *)
Lemma truthy_guarded_filter (patterns : option (list regex)) s :
  truthy (py_and (of_patterns patterns)
                 (filter_None (map (fun p => re_search search p s) (items patterns))))
  = matches_some search patterns s.
Proof.
  rewrite truthy_py_and, truthy_filter_search. unfold matches_some.
  destruct patterns as [[|p ps]|]; reflexivity.
Qed.

(** [not patterns or not filter(None, ...)]: no pattern is found in [s]. *)
Lemma truthy_no_exclude (patterns : option (list regex)) s :
  truthy (py_or (py_not (of_patterns patterns))
                (py_not (filter_None (map (fun p => re_search search p s)
                                          (items patterns)))))
  = negb (matches_some search patterns s).
Proof.
  rewrite truthy_py_or, !truthy_py_not, truthy_filter_search. unfold matches_some.
  destruct patterns as [[|p ps]|]; reflexivity.
Qed.

Lemma truthy_has_extension self file :
  truthy (@py_and regex matchobj
            (of_strings (extension self))
            (VBool (anyp (Py.endswith file) (items (extension self)))))
  = has_extension self file.
Proof.
  rewrite truthy_py_and. unfold has_extension, anyp.
  destruct (extension self) as [[|e es]|]; reflexivity.
Qed.

(** What [wantFile] returns, in one equation. *)
Lemma wantFile_eq self file :
  wantFile search self file
  = if spec_wantsFile search self file then VBool true else VNone.
Proof.
  unfold wantFile, spec_wantsFile.
  destruct (Py.endswith file ".py"); [ reflexivity | ].
  rewrite truthy_py_and, truthy_has_extension, truthy_no_exclude.
  reflexivity.
Qed.

(** C2: for a module name other than ["__init__.py"], [matches] accepts the name
    (returns a true value) if and only if the also-scan flag is set, or the
    name does not look like a test module, or it matches an include pattern,
    and in each case it matches no exclude pattern. *)
Theorem matches_accepts_iff self name :
  name <> "__init__.py" ->
  truthy (matches search self name) = spec_wantsModule search self name.
Proof.
  intros Hname. unfold matches, spec_wantsModule.
  apply String.eqb_neq in Hname. rewrite Hname.
  rewrite truthy_py_and, truthy_no_exclude.
  rewrite !truthy_py_or, truthy_guarded_filter, truthy_py_not, truthy_re_search.
  reflexivity.
Qed.

(** C8: on the literal name ["__init__.py"], [matches] returns [False] whatever
    the flag and the include and exclude patterns are. *)
Theorem matches_init_py_False self :
  matches search self "__init__.py" = VBool false.
Proof. reflexivity. Qed.

(** C9, amended: a filename that does not end in [.py] and matches an exclude
    pattern is not accepted by [wantFile], which returns [None] for it; a
    filename that ends in [.py] is accepted, with [True], whatever the
    exclude patterns are. *)
Theorem wantFile_exclude_vetoes_non_py self file :
  (Py.endswith file ".py" = false ->
   matches_some search (exclude (conf self)) file = true ->
   wantFile search self file = VNone)
  /\ (Py.endswith file ".py" = true ->
      wantFile search self file = VBool true).
Proof.
  rewrite wantFile_eq. unfold spec_wantsFile. split.
  - intros Hpy Hex. now rewrite Hpy, Hex, andb_false_r.
  - intros Hpy. now rewrite Hpy.
Qed.

(** C10: [wantFile] returns [True] when the filename is accepted (it ends in
    [.py], or has an auxiliary extension and matches no exclude pattern) and
    [None] when it is not; it never returns [False]. *)
Theorem wantFile_True_or_None self file :
  (wantFile search self file
   = if Py.endswith file ".py"
        || (has_extension self file
            && negb (matches_some search (exclude (conf self)) file))
     then VBool true else VNone)
  /\ wantFile search self file <> VBool false.
Proof.
  pose proof (wantFile_eq self file) as E. unfold spec_wantsFile in E.
  split; [ exact E | ].
  rewrite E. now destruct (_ || _).
Qed.

End EligibilityFacts.

(** C2 at work: [pkg.mod] is accepted (not test-like, not excluded). *)
Lemma matches_accepts_iff_witness :
  "pkg.mod" <> "__init__.py"
  /\ truthy (matches Demo.search Demo.plugin "pkg.mod")
     = spec_wantsModule Demo.search Demo.plugin "pkg.mod".
Proof.
  split; [ discriminate | ].
  apply (matches_accepts_iff Demo.search Demo.plugin).
  discriminate.
Defined.

(** C9 as stated fails: [skip_me.py] matches the exclude pattern [skip] and is
    accepted all the same, because [.py] files are always wanted. *)
Lemma wantFile_exclude_does_not_veto_py :
  ~ (matches_some Demo.search (exclude (conf Demo.plugin)) "skip_me.py" = true ->
     truthy (wantFile Demo.search Demo.plugin "skip_me.py") = false).
Proof.
  intros H. specialize (H eq_refl). discriminate H.
Qed.

(** C9 amended at work: [skip.txt] has an enabled extension, is excluded, and
    gets [None]; [skip_me.py] is excluded as well and gets [True]. *)
Lemma wantFile_exclude_vetoes_non_py_witness :
  matches_some Demo.search (exclude (conf Demo.plugin)) "skip.txt" = true
  /\ wantFile Demo.search Demo.plugin "skip.txt" = VNone
  /\ matches_some Demo.search (exclude (conf Demo.plugin)) "skip_me.py" = true
  /\ wantFile Demo.search Demo.plugin "skip_me.py" = VBool true.
Proof.
  split; [ reflexivity | ]. split.
  - apply (proj1 (wantFile_exclude_vetoes_non_py Demo.search Demo.plugin
                                                 "skip.txt"));
      reflexivity.
  - split; [ reflexivity | ].
    apply (proj2 (wantFile_exclude_vetoes_non_py Demo.search Demo.plugin
                                                 "skip_me.py")).
    reflexivity.
Defined.

(** ** Sorting keeps the blocks *)

Lemma is_nil_true {A} (l : list A) : is_nil l = true <-> l = [].
Proof. destruct l; split; intros H; try reflexivity; discriminate H. Qed.

Lemma is_nil_false {A} (l : list A) : is_nil l = false <-> l <> [].
Proof.
  destruct l; cbn; split; intros H;
    try reflexivity; try discriminate; exfalso; now apply H.
Qed.

Lemma insert_sorted_Permutation t l : Permutation (insert_sorted t l) (t :: l).
Proof.
  induction l as [|x rest IH]; cbn [insert_sorted]; [ apply Permutation_refl | ].
  destruct (DocTest_cmp t x); try apply Permutation_refl;
    (eapply perm_trans; [ apply perm_skip, IH | apply perm_swap ]).
Qed.

Lemma fold_insert_Permutation tests : forall acc,
  Permutation (fold_left (fun acc t => insert_sorted t acc) tests acc) (acc ++ tests).
Proof.
  induction tests as [|t rest IH]; intros acc; cbn [fold_left].
  - rewrite app_nil_r. apply Permutation_refl.
  - eapply perm_trans; [ apply IH | ].
    eapply perm_trans; [ apply Permutation_app_tail, insert_sorted_Permutation | ].
    cbn [app]. apply Permutation_middle.
Qed.

Lemma sort_Permutation tests : Permutation (sort tests) tests.
Proof. exact (fold_insert_Permutation tests []). Qed.

Lemma sort_In t tests : In t (sort tests) <-> In t tests.
Proof.
  split; apply Permutation_in;
    [ apply sort_Permutation | apply Permutation_sym, sort_Permutation ].
Qed.

(** ** Whole-module and single-entity extraction *)

Section ExtractionFacts.

Context {regex matchobj pyobj Suite : Type}.
Variable search : regex -> string -> option matchobj.
Variable find_module : Module -> result (list DocTest).
Variable find_obj : pyobj -> option Module -> string -> result (list DocTest).
Variable getmodule : pyobj -> option Module.
Variable getattr_name : pyobj -> option string.
Variable type_str : pyobj -> string.
Variable src : option string -> option string.

Implicit Types (self : @Doctest regex matchobj pyobj Suite) (module : Module).
Implicit Types (obj parent : pyobj).

(** The loop of the module scan computes the surviving Cases. *)
Lemma module_cases_surviving module_file tests :
  module_cases module_file tests = surviving_cases (pyobj := pyobj) module_file tests.
Proof.
  unfold surviving_cases.
  induction tests as [|t rest IH]; [ reflexivity | ].
  cbn [module_cases filter]. unfold has_examples.
  destruct (is_nil (examples t)); cbn [negb map]; [ exact IH | ].
  now rewrite IH.
Qed.

(** The loop of the single-entity scan does the same, with the entity kept. *)
Lemma object_cases_filter obj doctests :
  object_cases obj doctests
  = map (fun t => DocTestCase.init t (Some obj)) (filter has_examples doctests).
Proof.
  induction doctests as [|t rest IH]; [ reflexivity | ].
  cbn [object_cases filter]. unfold has_examples.
  destruct (examples t) as [|e es]; cbn; [ exact IH | now rewrite IH ].
Qed.

Lemma surviving_cases_In module_file tests (c : DocTestCase.t pyobj) :
  In c (surviving_cases module_file tests) <->
  exists t, In t tests /\ examples t <> []
            /\ c = DocTestCase.init (backfill module_file t) None.
Proof.
  unfold surviving_cases. rewrite in_map_iff. split.
  - intros [t [Hc Ht]]. apply filter_In in Ht as [Hin Hex].
    exists t. unfold has_examples in Hex.
    apply negb_true_iff, is_nil_false in Hex. now split; [ | split ].
  - intros [t [Hin [Hex Hc]]]. exists t. split; [ now symmetry | ].
    apply filter_In. split; [ exact Hin | ].
    unfold has_examples. now apply negb_true_iff, is_nil_false.
Qed.


(** What the module scan returns, case by case. *)
Lemma loadTestsFromModule_eq self module st :
  loadTestsFromModule search find_module src self module st =
  if truthy (matches search self (__name__ module)) then
    match find_module module with
    | Raise e => if is_AttributeError e then (Ok [], st) else (Raise e, st)
    | Ok tests =>
        if is_nil tests then (Ok [], st)
        else
          match __file__ module with
          | None => (Raise AttributeError, st)
          | Some file =>
              let cases := surviving_cases (src file) (sort tests) in
              if is_nil cases then (Ok [], st)
              else (Ok [suiteClass self cases (Some module) false], st)
          end
    end
  else (Ok [], mkState (sys_path st) (log st ++ [DoesntWantModule module])).
Proof.
  unfold loadTestsFromModule.
  destruct (truthy (matches search self (__name__ module))); cbn [negb];
    [ | reflexivity ].
  unfold bind, try_except, lift, ret, get__file__.
  destruct (find_module module) as [tests|e].
  - destruct (is_nil tests); [ reflexivity | ].
    destruct (__file__ module) as [file|]; [ | reflexivity ].
    rewrite module_cases_surviving. cbn zeta. now destruct (is_nil _).
  - now destruct (is_AttributeError e).
Qed.

Lemma makeTest_eq self obj parent st :
  makeTest find_obj getmodule getattr_name type_str self obj parent st =
  let name := match getattr_name obj with
              | Some n => n
              | None => "Unnammed " ++ type_str obj
              end in
  match find_obj obj (getmodule parent) name with
  | Raise e => (Raise e, st)
  | Ok doctests =>
      (Ok (map (fun t => DocTestCase.init t (Some obj)) (filter has_examples doctests)), st)
  end.
Proof.
  unfold makeTest, bind, lift, ret. cbn zeta.
  destruct (find_obj _ _ _) as [doctests|e]; [ | reflexivity ].
  rewrite object_cases_filter. now destruct doctests.
Qed.

(** C3, amended: when the module scan yields anything, it yields exactly one
    Group, built from all the surviving Cases of the module with
    [context=module] and [can_split=False] (for [DoctestSuite], the Group
    then has that context, that flag and those Cases); when no block was
    found, or the module has a [__file__] and no block found has examples,
    it yields nothing. *)
Theorem loadTestsFromModule_one_group self module st :
  (forall ys st',
     loadTestsFromModule search find_module src self module st = (Ok ys, st') ->
     ys = [] \/
     exists tests file,
       find_module module = Ok tests
       /\ __file__ module = Some file
       /\ let cases := surviving_cases (src file) (sort tests) in
          ys = [suiteClass self cases (Some module) false]
          /\ cases <> []
          /\ (forall t, In t tests -> examples t <> [] ->
                In (DocTestCase.init (backfill (src file) t) None) cases)
          /\ DoctestSuite.context (DoctestSuite.init cases (Some module) false)
             = Some module
          /\ DoctestSuite.can_split (DoctestSuite.init cases (Some module) false)
             = false
          /\ DoctestSuite.iter (DoctestSuite.init cases (Some module) false) = cases)
  /\ (forall tests,
        find_module module = Ok tests ->
        Forall (fun t => examples t = []) tests ->
        tests = [] \/ __file__ module <> None ->
        fst (loadTestsFromModule search find_module src self module st) = Ok []).
Proof.
  rewrite loadTestsFromModule_eq. split.
  - intros ys st' H.
    destruct (truthy _); [ | left; congruence ].
    destruct (find_module module) as [tests|e].
    + destruct (is_nil tests); [ left; congruence | ].
      destruct (__file__ module) as [file|]; [ | discriminate H ].
      cbn zeta in H.
      destruct (is_nil (surviving_cases _ _)) eqn:Hnil; [ left; congruence | ].
      right. exists tests, file. split; [ reflexivity | ].
      split; [ reflexivity | ]. cbn zeta.
      split; [ congruence | ].
      split; [ now apply is_nil_false | ].
      split; [ | now repeat split ].
      intros t Hin Hex. apply surviving_cases_In. exists t.
      split; [ now apply sort_In | now split ].
    + destruct (is_AttributeError e); [ left; congruence | discriminate H ].
  - intros tests Hfind Hall Hfile.
    destruct (truthy _); [ | reflexivity ].
    rewrite Hfind.
    destruct (is_nil tests) eqn:Htests; [ reflexivity | ].
    destruct Hfile as [->|Hfile]; [ discriminate Htests | ].
    destruct (__file__ module) as [file|]; [ | now destruct Hfile ].
    cbn zeta.
    destruct (is_nil (surviving_cases _ _)) eqn:Hnil; [ reflexivity | exfalso ].
    apply is_nil_false in Hnil.
    destruct (surviving_cases (pyobj := pyobj) (src file) (sort tests))
      as [|c cs] eqn:Hc; [ now apply Hnil | ].
    assert (Hin : In c (surviving_cases (src file) (sort tests)))
      by (rewrite Hc; now left).
    apply surviving_cases_In in Hin as [t [Hin [Hex _]]].
    apply (proj1 (sort_In _ _)) in Hin.
    rewrite Forall_forall in Hall. apply Hex, Hall, Hin.
Qed.


End ExtractionFacts.

(** C3 at work (scenario A of the specification, with scenario B's property in
    the same module): [pkg.mod] gives one Group of two Cases, bound to the
    module and not splittable. *)
Lemma loadTestsFromModule_one_group_witness :
  exists g,
    loadTestsFromModule Demo.search Demo.find_module Demo.src
                        Demo.plugin Demo.pkg_mod Demo.st0
    = (Ok [g], Demo.st0)
    /\ DoctestSuite.context g = Some Demo.pkg_mod
    /\ DoctestSuite.can_split g = false
    /\ map (fun c => name (DocTestCase._dt_test c)) (DoctestSuite.iter g)
       = ["pkg.mod.C.p"; "pkg.mod.f"].
Proof.
  destruct (proj1 (loadTestsFromModule_one_group
                     Demo.search Demo.find_module Demo.src
                     Demo.plugin Demo.pkg_mod Demo.st0) _ _ eq_refl)
    as [Hnone | [tests [file [Hfind [Hfile Hgroup]]]]].
  - discriminate Hnone.
  - cbv zeta in Hgroup.
    destruct Hgroup as [Hys [_ [_ [Hcontext [Hsplit _]]]]].
    eexists. split; [ reflexivity | ].
    split; [ exact Hcontext | split; [ exact Hsplit | reflexivity ] ].
Defined.

(** C3 as stated fails: for a built-in module, which has no [__file__], a
    finder that returns one block with no example leaves no block to
    survive, and the scan raises instead of yielding nothing. *)
Lemma loadTestsFromModule_no_file_raises :
  ~ (Sample.find_empty_block Sample.builtin_mod = Ok [Demo.test_C] ->
     Forall (fun t => examples t = []) [Demo.test_C] ->
     fst (loadTestsFromModule Demo.search Sample.find_empty_block Demo.src
                              Demo.plugin Sample.builtin_mod Demo.st0)
     = Ok []).
Proof.
  intros H.
  assert (Hall : Forall (fun t => examples t = []) [Demo.test_C])
    by (constructor; [ reflexivity | constructor ]).
  specialize (H eq_refl Hall). discriminate H.
Qed.


(** ** File extraction *)

Section FileFacts.

Context {regex matchobj pyobj Suite : Type}.
Variable open_read : string -> result string.
Variable basename : string -> string.
Variable dirname : string -> string.
Variable splitext : string -> string * string.
Variable import_ : list string -> string -> result Module.
Variable get_examples : string -> string -> result (list Example).

Implicit Types (self : @Doctest regex matchobj pyobj Suite) (filename file : string).

(** What the fixture lookup returns, case by case. *)
Lemma fixture_lookup_eq self filename st :
  fixture_lookup dirname splitext import_ self (basename filename) filename st =
  match fixtures self with
  | None => (Ok None, st)
  | Some suffix =>
      if suffix =? "" then (Ok None, st)
      else
        let fixt_mod := fixture_module_name basename splitext suffix filename in
        let path := (sys_path st ++ [dirname filename])%list in
        match import_ path fixt_mod with
        | Ok m =>
            (Ok (Some m),
             mkState path (log st ++ [FixtureResolved fixt_mod (Some m)])%list)
        | Raise e =>
            if is_ImportError e then
              (Ok None,
               mkState path (log st ++ [CouldNotImport fixt_mod e path;
                                        FixtureResolved fixt_mod None])%list)
            else (Raise e, mkState path (log st))
        end
  end.
Proof.
  unfold fixture_lookup, fixture_module_name.
  destruct (fixtures self) as [suffix|]; [ | reflexivity ].
  cbn [truthy]. destruct (suffix =? ""); cbn [negb]; [ reflexivity | ].
  destruct (splitext (basename filename)) as [base ext]. cbn [fst].
  unfold bind, try_except, sys_path_append, get_sys_path, lift, log_debug, ret.
  cbn [sys_path log].
  destruct (import_ _ _) as [m|e]; [ reflexivity | ].
  destruct (is_ImportError e); [ | reflexivity ].
  cbn [sys_path log]. now rewrite <- app_assoc.
Qed.

(** What file extraction returns, case by case. *)
Lemma loadTestsFromFile_eq self filename st :
  loadTestsFromFile open_read basename dirname splitext import_ get_examples
                    self filename st =
  if has_extension self filename then
    match open_read filename with
    | Raise e => (Raise e, st)
    | Ok doc =>
        match fixture_lookup dirname splitext import_ self
                             (basename filename) filename st with
        | (Raise e, st1) => (Raise e, st1)
        | (Ok fixture_context, st1) =>
            match get_examples doc (basename filename) with
            | Raise e => (Raise e, st1)
            | Ok exs =>
                let case := DocFileCase.init (file_block basename filename doc exs) in
                match exs, fixture_context with
                | [], _ => (Ok [YieldFalse], st1)
                | _ :: _, Some m =>
                    (Ok [YieldSuite (ContextSuite.init [case] (Some m))], st1)
                | _ :: _, None => (Ok [YieldCase case], st1)
                end
            end
        end
    end
  else (Ok [], st).
Proof.
  unfold loadTestsFromFile.
  rewrite (truthy_has_extension (regex := regex) (matchobj := matchobj)).
  destruct (has_extension self filename); [ | reflexivity ].
  unfold bind at 1. unfold lift at 1.
  destruct (open_read filename) as [doc|e]; [ | reflexivity ].
  unfold bind at 1.
  destruct (fixture_lookup _ _ _ _ _ _ _) as [[fixture_context|e] st1];
    [ | reflexivity ].
  unfold bind, lift, get_doctest, ret.
  destruct (get_examples doc (basename filename)) as [exs|e]; [ | reflexivity ].
  cbn [examples]. unfold file_block.
  destruct exs as [|x xs]; [ reflexivity | ].
  now destruct fixture_context.
Qed.

(** C5, amended: for a file with an enabled extension that can be read and
    parsed, extraction yields exactly one item. When a fixture suffix is
    configured and the fixture module imports, the item is a Group holding
    the file's single Case, with the fixture module as context, or [False]
    when the block has no example. When no fixture suffix is configured
    (none, or the empty one), or the import raises [ImportError], the item
    is the bare Case itself, in no Group, or [False] when the block has no
    example. An import that raises anything else makes the extraction raise
    it. *)
Theorem loadTestsFromFile_yields self filename st doc exs :
  has_extension self filename = true ->
  open_read filename = Ok doc ->
  get_examples doc (basename filename) = Ok exs ->
  let case := DocFileCase.init (file_block basename filename doc exs) in
  let bare :=
    match exs with
    | [] => YieldFalse
    | _ :: _ => YieldCase case
    end in
  let grouped (m : Module) :=
    match exs with
    | [] => YieldFalse
    | _ :: _ => YieldSuite (ContextSuite.init [case] (Some m))
    end in
  loadTestsFromFile open_read basename dirname splitext import_ get_examples
                    self filename st
  = (match fixtures self with
     | None => Ok [bare]
     | Some suffix =>
         if suffix =? "" then Ok [bare]
         else
           match import_ (sys_path st ++ [dirname filename])%list
                         (fixture_module_name basename splitext suffix filename)
           with
           | Ok m => Ok [grouped m]
           | Raise e => if is_ImportError e then Ok [bare] else Raise e
           end
     end,
     snd (fixture_lookup dirname splitext import_ self
                         (basename filename) filename st)).
Proof.
  intros Hext Hopen Hparse case bare grouped. subst case bare grouped.
  rewrite loadTestsFromFile_eq, Hext, Hopen, fixture_lookup_eq, Hparse.
  destruct (fixtures self) as [suffix|]; [ | now destruct exs ].
  destruct (suffix =? ""); [ now destruct exs | ]. cbv zeta.
  destruct (import_ _ _) as [m|e]; [ now destruct exs | ].
  destruct (is_ImportError e); [ now destruct exs | reflexivity ].
Qed.

(** C6: [DocFileCase.address] is [(filename, None, None)] with the filename of
    the wrapped block; for every Case that file extraction yields, bare or
    inside a Group, that is the path of the file, whatever the file holds and
    whatever fixture is configured. *)
Theorem DocFileCase_address_is_filename self file st ys st' c :
  loadTestsFromFile open_read basename dirname splitext import_ get_examples
                    self file st
  = (Ok ys, st') ->
  In (YieldCase c) ys
  \/ (exists g, In (YieldSuite g) ys /\ In c (ContextSuite.tests g)) ->
  DocFileCase.address c = (filename (DocFileCase._dt_test c), None, None)
  /\ DocFileCase.address c = (Some file, None, None).
Proof.
  intros Hload Hc. split; [ reflexivity | ].
  rewrite loadTestsFromFile_eq in Hload.
  destruct (has_extension self file);
    [ | injection Hload as <- _; now destruct Hc as [[]|[g [[] _]]] ].
  destruct (open_read file) as [doc|e]; [ | discriminate Hload ].
  destruct (fixture_lookup _ _ _ _ _ _ _) as [[fixture_context|e] st1];
    [ | discriminate Hload ].
  destruct (get_examples doc (basename file)) as [exs|e];
    [ | discriminate Hload ].
  cbn zeta in Hload.
  destruct exs as [|x xs]; [ | destruct fixture_context as [m|] ];
    injection Hload as <- _; cbn [In] in Hc.
  - destruct Hc as [[H|[]]|[g [[H|[]] _]]]; discriminate H.
  - destruct Hc as [[H|[]]|[g [[H|[]] Hin]]]; [ discriminate H | ].
    injection H as <-. cbn [ContextSuite.tests In] in Hin.
    destruct Hin as [<-|[]]. reflexivity.
  - destruct Hc as [[H|[]]|[g [[H|[]] _]]]; [ | discriminate H ].
    injection H as <-. reflexivity.
Qed.

(** C7, amended: when a fixture suffix is configured and importing the
    fixture module raises [ImportError], the failure is logged and goes no
    further: file extraction returns what it returns with no fixture
    configured, that is the bare Case of the file (or [False] for a file with
    no example). *)
Theorem fixture_import_failure_recovered self filename st suffix doc e :
  fixtures self = Some suffix ->
  suffix <> "" ->
  has_extension self filename = true ->
  open_read filename = Ok doc ->
  import_ (sys_path st ++ [dirname filename])%list
          (fixture_module_name basename splitext suffix filename)
  = Raise e ->
  is_ImportError e = true ->
  let run := loadTestsFromFile open_read basename dirname splitext import_
                               get_examples in
  let fixt_mod := fixture_module_name basename splitext suffix filename in
  let path := (sys_path st ++ [dirname filename])%list in
  fst (run self filename st)
  = match get_examples doc (basename filename) with
    | Raise e' => Raise e'
    | Ok [] => Ok [YieldFalse]
    | Ok exs => Ok [YieldCase (DocFileCase.init (file_block basename filename doc exs))]
    end
  /\ fst (run self filename st) = fst (run (without_fixtures self) filename st)
  /\ log (snd (run self filename st))
     = (log st ++ [CouldNotImport fixt_mod e path;
                   FixtureResolved fixt_mod None])%list.
Proof.
  intros Hfix Hne Hext Hopen Himp He run fixt_mod path.
  subst run fixt_mod path.
  assert (Hext' : has_extension (without_fixtures self) filename = true)
    by exact Hext.
  rewrite !loadTestsFromFile_eq, Hext, Hext', Hopen, !fixture_lookup_eq.
  cbn [without_fixtures fixtures]. rewrite Hfix.
  apply String.eqb_neq in Hne. rewrite Hne. cbn zeta.
  rewrite Himp, He.
  destruct (get_examples doc (basename filename)) as [[|x xs]|e'];
    repeat split; reflexivity.
Qed.

End FileFacts.

(** C5 as stated fails (scenario C of the specification): with no fixture
    suffix configured, [docs/guide.txt] yields its Case bare, not a Group
    with context [None]. *)
Lemma loadTestsFromFile_bare_case_is_no_group :
  ~ (exists g,
       fst (loadTestsFromFile Demo.open_read Demo.basename Demo.dirname
                              Demo.splitext Demo.import_ Demo.get_examples
                              Demo.plugin "docs/guide.txt" Demo.st0)
       = Ok [YieldSuite g]
       /\ ContextSuite.context g = None).
Proof.
  intros [g [H _]]. vm_compute in H. discriminate H.
Qed.

(** C5 amended at work (scenario D): with the suffix [_fixt], [docs/guide.txt]
    yields one Group whose context is the module [guide_fixt]. *)
Lemma loadTestsFromFile_yields_witness :
  loadTestsFromFile Demo.open_read Demo.basename Demo.dirname
                    Demo.splitext Demo.import_ Demo.get_examples
                    Demo.plugin_fixt "docs/guide.txt" Demo.st0
  = (Ok [YieldSuite
           (ContextSuite.init
              [DocFileCase.init
                 (file_block Demo.basename "docs/guide.txt" ">>> 1+1"
                             [Demo.one_plus_one])]
              (Some Demo.guide_fixt))],
     mkState ["."; "docs"]
             [FixtureResolved "guide_fixt" (Some Demo.guide_fixt)]).
Proof.
  exact (@loadTestsFromFile_yields _ _ _ _
           Demo.open_read Demo.basename Demo.dirname Demo.splitext
           Demo.import_ Demo.get_examples
           Demo.plugin_fixt "docs/guide.txt" Demo.st0
           ">>> 1+1" [Demo.one_plus_one] eq_refl eq_refl eq_refl).
Defined.

(** C6 at work (scenario C): the bare Case of [docs/guide.txt] is addressed by
    the file alone. *)
Lemma DocFileCase_address_is_filename_witness :
  DocFileCase.address
    (DocFileCase.init (file_block Demo.basename "docs/guide.txt" ">>> 1+1"
                                  [Demo.one_plus_one]))
  = (Some "docs/guide.txt", None, None).
Proof.
  refine (proj2 (@DocFileCase_address_is_filename _ _ _ _
                   Demo.open_read Demo.basename Demo.dirname Demo.splitext
                   Demo.import_ Demo.get_examples
                   Demo.plugin "docs/guide.txt" Demo.st0 _ _ _ eq_refl _)).
  left. now left.
Defined.

(** C7 as stated fails: a fixture module that is there and fails while it is
    imported, with an exception that is no [ImportError], stops the
    extraction of the file: the failure reaches the caller. *)
Lemma fixture_failure_reaches_caller :
  ~ (fixtures Demo.plugin_fixt = Some "_fixt" ->
     Demo.import_broken ["."; "docs"] "guide_fixt"
     = Raise (OtherError "SyntaxError") ->
     exists ys,
       fst (loadTestsFromFile Demo.open_read Demo.basename Demo.dirname
                              Demo.splitext Demo.import_broken
                              Demo.get_examples
                              Demo.plugin_fixt "docs/guide.txt" Demo.st0)
       = Ok ys).
Proof.
  intros H. destruct (H eq_refl eq_refl) as [ys Hys]. discriminate Hys.
Qed.

(** C7 amended at work: [docs/intro.txt] has no fixture module; with the suffix
    [_fixt] configured its Case is yielded bare, and the failed import is in
    the log. *)
Lemma fixture_import_failure_recovered_witness :
  let run := loadTestsFromFile Demo.open_read Demo.basename Demo.dirname
                               Demo.splitext Demo.import_ Demo.get_examples in
  fst (run Demo.plugin_fixt "docs/intro.txt" Demo.st0)
  = Ok [YieldCase
          (DocFileCase.init
             (file_block Demo.basename "docs/intro.txt" ">>> 1+1"
                         [Demo.one_plus_one]))]
  /\ fst (run Demo.plugin_fixt "docs/intro.txt" Demo.st0)
     = fst (run (without_fixtures Demo.plugin_fixt) "docs/intro.txt" Demo.st0)
  /\ log (snd (run Demo.plugin_fixt "docs/intro.txt" Demo.st0))
     = [CouldNotImport "intro_fixt" (ImportError "intro_fixt") ["."; "docs"];
        FixtureResolved "intro_fixt" None].
Proof.
  exact (@fixture_import_failure_recovered _ _ _ _
           Demo.open_read Demo.basename Demo.dirname Demo.splitext
           Demo.import_ Demo.get_examples
           Demo.plugin_fixt "docs/intro.txt" Demo.st0 "_fixt" ">>> 1+1"
           (ImportError "intro_fixt")
           eq_refl ltac:(discriminate) eq_refl eq_refl eq_refl eq_refl).
Defined.

(** ** Splitting a dotted name *)

Lemma append_nil_r (s : string) : s ++ "" = s.
Proof. induction s as [|c s IH]; cbn; [ reflexivity | now rewrite IH ]. Qed.

Lemma append_assoc (a b c : string) : (a ++ b) ++ c = a ++ (b ++ c).
Proof. induction a as [|x a IH]; cbn; [ reflexivity | now rewrite IH ]. Qed.

(** A piece with no separator in it is read whole. *)
Lemma split_from_no_sep sep leaf : forall cur,
  ~ In sep (list_ascii_of_string leaf) ->
  Py.split_from sep cur leaf = [cur ++ leaf].
Proof.
  induction leaf as [|c leaf IH]; intros cur Hno; cbn [Py.split_from].
  - now rewrite append_nil_r.
  - cbn [list_ascii_of_string In] in Hno.
    destruct (Ascii.eqb c sep) eqn:Hc.
    + apply Ascii.eqb_eq in Hc. exfalso. apply Hno. now left.
    + rewrite IH by (intros H; apply Hno; now right).
      now rewrite append_assoc.
Qed.

(** [split] never returns the empty list, so [parts[-1]] exists. *)
Lemma split_from_last_item sep s : forall cur,
  exists leaf, Py.last_item (Py.split_from sep cur s) = Some leaf.
Proof.
  unfold Py.last_item.
  induction s as [|c s IH]; intros cur; cbn [Py.split_from].
  - now exists cur.
  - destruct (Ascii.eqb c sep); [ | apply IH ].
    destruct (IH EmptyString) as [leaf Hleaf]. exists leaf.
    cbn [rev]. destruct (rev (Py.split_from sep "" s)) as [|x xs];
      [ discriminate Hleaf | exact Hleaf ].
Qed.

(** Splitting [owner.leaf] at the dots gives the pieces of [owner], which
    join back to [owner], and then [leaf]. *)
Lemma split_from_owner_leaf sep owner leaf :
  ~ In sep (list_ascii_of_string leaf) ->
  forall cur, exists pieces,
    pieces <> []
    /\ Py.split_from sep cur (owner ++ String sep leaf) = (pieces ++ [leaf])%list
    /\ Py.join (String sep "") pieces = cur ++ owner.
Proof.
  intros Hno. induction owner as [|c owner IH]; intros cur.
  - exists [cur]. split; [ discriminate | ].
    cbn [append Py.split_from]. rewrite Ascii.eqb_refl.
    rewrite (@split_from_no_sep sep leaf _ Hno). cbn. now rewrite append_nil_r.
  - cbn [append Py.split_from]. destruct (Ascii.eqb c sep) eqn:Hc.
    + apply Ascii.eqb_eq in Hc. subst c.
      destruct (IH EmptyString) as [pieces [Hne [Hsplit Hjoin]]].
      exists (cur :: pieces). split; [ discriminate | ].
      split; [ now rewrite Hsplit | ].
      unfold Py.join in *. destruct pieces as [|x xs]; [ now destruct Hne | ].
      cbn [String.concat] in *. rewrite Hjoin. reflexivity.
    + destruct (IH (cur ++ String c "")) as [pieces [Hne [Hsplit Hjoin]]].
      exists pieces. split; [ exact Hne | ]. split; [ exact Hsplit | ].
      rewrite Hjoin. now rewrite append_assoc.
Qed.

Lemma split_owner_leaf owner leaf :
  ~ In "."%char (list_ascii_of_string leaf) ->
  Py.join "." (Py.but_last (Py.split "." (owner ++ "." ++ leaf))) = owner
  /\ Py.last_item (Py.split "." (owner ++ "." ++ leaf)) = Some leaf.
Proof.
  intros Hno. unfold Py.split.
  destruct (@split_from_owner_leaf "."%char owner leaf Hno EmptyString)
    as [pieces [Hne [Hsplit Hjoin]]].
  change ("." ++ leaf) with (String "."%char leaf). rewrite Hsplit. split.
  - unfold Py.but_last. now rewrite removelast_last.
  - unfold Py.last_item. now rewrite rev_app_distr.
Qed.

(** ** Addresses of module Cases *)

Section AddressFacts.

Context {pyobj : Type}.
Variable test_address : pyobj -> result Address.

Implicit Types (self : DocTestCase.t pyobj) (obj cls : pyobj).
Implicit Types (resolve_name : string -> result pyobj) (isproperty : pyobj -> bool).

(** The property branch, with the class name and the leaf as the code computes
    them from the stored name. *)
Lemma address_property_parts resolve_name isproperty self obj cls file module call :
  DocTestCase._nose_obj self = None ->
  resolve_name (name (DocTestCase._dt_test self)) = Ok obj ->
  isproperty obj = true ->
  resolve_name
    (Py.join "." (Py.but_last (Py.split "." (name (DocTestCase._dt_test self)))))
  = Ok cls ->
  test_address cls = Ok (file, module, Some call) ->
  exists leaf,
    Py.last_item (Py.split "." (name (DocTestCase._dt_test self))) = Some leaf
    /\ DocTestCase.address test_address resolve_name isproperty self
       = Ok (file, module, Some (call ++ "." ++ leaf)).
Proof.
  intros Hobj Hres Hprop Hcls Haddr.
  destruct (split_from_last_item "."%char (name (DocTestCase._dt_test self))
                                 EmptyString) as [leaf Hleaf].
  exists leaf. split; [ exact Hleaf | ].
  unfold DocTestCase.address, DocTestCase.leaf_of, Py.split.
  rewrite Hobj, Hres, Hprop. unfold Py.split in Hcls. rewrite Hcls, Haddr, Hleaf.
  reflexivity.
Qed.

(** C1: [address] of a Case that carries its originating entity is
    [test_address] of that entity, whatever name resolution would give.
    Without one, the stored name is resolved: an object that is not a
    property is addressed directly; for a property named [owner.leaf], the
    class [owner] is resolved and the result is its filename and module with
    the call path [<class call path>.leaf]. *)
Theorem DocTestCase_address_paths resolve_name isproperty self :
  (forall obj,
     DocTestCase._nose_obj self = Some obj ->
     forall resolve_name' isproperty',
       DocTestCase.address test_address resolve_name' isproperty' self
       = test_address obj)
  /\ (forall obj,
        DocTestCase._nose_obj self = None ->
        resolve_name (name (DocTestCase._dt_test self)) = Ok obj ->
        isproperty obj = false ->
        DocTestCase.address test_address resolve_name isproperty self
        = test_address obj)
  /\ (forall obj owner leaf cls file module call,
        DocTestCase._nose_obj self = None ->
        resolve_name (name (DocTestCase._dt_test self)) = Ok obj ->
        isproperty obj = true ->
        name (DocTestCase._dt_test self) = owner ++ "." ++ leaf ->
        ~ In "."%char (list_ascii_of_string leaf) ->
        resolve_name owner = Ok cls ->
        test_address cls = Ok (file, module, Some call) ->
        DocTestCase.address test_address resolve_name isproperty self
        = Ok (file, module, Some (call ++ "." ++ leaf))).
Proof.
  split; [ | split ].
  - intros obj Hobj rn ip. unfold DocTestCase.address. now rewrite Hobj.
  - intros obj Hobj Hres Hprop. unfold DocTestCase.address.
    now rewrite Hobj, Hres, Hprop.
  - intros obj owner leaf cls file module call Hobj Hres Hprop Hname Hleaf Hcls Haddr.
    destruct (@split_owner_leaf owner leaf Hleaf) as [Hjoin Hlast].
    rewrite <- Hname in Hjoin, Hlast.
    destruct (@address_property_parts resolve_name isproperty self obj cls
                file module call Hobj Hres Hprop)
      as [leaf' [Hleaf' Haddress]];
      [ now rewrite Hjoin | exact Haddr | ].
    rewrite Hlast in Hleaf'. injection Hleaf' as <-. exact Haddress.
Qed.

End AddressFacts.

(** C1 at work (scenario B): the Case of the property [pkg.mod.C.p], found by
    the module scan and so carrying no entity, is addressed through the class
    [pkg.mod.C], with call path [C.p]. *)
Lemma DocTestCase_address_paths_witness :
  DocTestCase.address Demo.test_address Demo.resolve_name Demo.isproperty
                      (DocTestCase.init Demo.test_p None)
  = Ok (Some "pkg/mod.py", Some "pkg.mod", Some "C.p").
Proof.
  refine (proj2 (proj2 (@DocTestCase_address_paths _ Demo.test_address
                          Demo.resolve_name Demo.isproperty
                          (DocTestCase.init Demo.test_p None)))
                Demo.PropP "pkg.mod.C" "p" Demo.ClassC _ _ _
                eq_refl eq_refl eq_refl eq_refl _ eq_refl eq_refl).
  cbn. intros [H|[]]. discriminate H.
Defined.

(** Only [ImportError] is caught by the fixture lookup: a fixture module that
    is found and fails with another exception while it is imported stops the
    extraction of the file. *)
Remark fixture_other_exception_propagates :
  fst (loadTestsFromFile Demo.open_read Demo.basename Demo.dirname
                         Demo.splitext Demo.import_broken Demo.get_examples
                         Demo.plugin_fixt "docs/guide.txt" Demo.st0)
  = Raise (OtherError "SyntaxError").
Proof. reflexivity. Qed.

(** ** [plugintest]: blocks of output *)

Lemma join_empty_cons (x : string) (xs : list string) :
  Py.join "" (x :: xs) = x ++ Py.join "" xs.
Proof.
  unfold Py.join. destruct xs as [|y ys]; cbn [String.concat].
  - now rewrite append_nil_r.
  - reflexivity.
Qed.

Lemma join_empty_app (xs ys : list string) :
  Py.join "" (xs ++ ys) = Py.join "" xs ++ Py.join "" ys.
Proof.
  induction xs as [|x xs IH]; [ reflexivity | ].
  cbn [app]. now rewrite !join_empty_cons, IH, append_assoc.
Qed.

Lemma append_not_empty (a : string) (c : ascii) (b : string) :
  a ++ String c b <> "".
Proof. destruct a; discriminate. Qed.

Lemma append_empty_l (a b : string) : a ++ b = "" -> a = "".
Proof. destruct a; [ reflexivity | discriminate ]. Qed.

Section OutputFacts.

Variable is_break : ascii -> bool.
Variable is_space : ascii -> bool.
Variable traceback_sub : string -> string.
Variable warn_sub : string -> string.
Variable timing_sub : string -> string.

Lemma splitlines_from_cons cur c rest :
  splitlines_from is_break cur (String c rest)
  = if is_break c then
      match rest with
      | String c' rest' =>
          if Ascii.eqb c "013" && Ascii.eqb c' "010" then
            (cur ++ String c (String c' EmptyString))
              :: splitlines_from is_break EmptyString rest'
          else (cur ++ String c EmptyString)
                 :: splitlines_from is_break EmptyString rest
      | EmptyString =>
          (cur ++ String c EmptyString) :: splitlines_from is_break EmptyString rest
      end
    else splitlines_from is_break (cur ++ String c EmptyString) rest.
Proof. reflexivity. Qed.

(** The lines, ends kept, put together give the text read so far. *)
Lemma splitlines_from_join text :
  (forall cur, Py.join "" (splitlines_from is_break cur text) = cur ++ text)
  /\ (forall c cur,
        Py.join "" (splitlines_from is_break cur (String c text))
        = cur ++ String c text).
Proof.
  induction text as [|c' rest [IH1 IH2]].
  - split.
    + intros cur. cbn [splitlines_from]. rewrite append_nil_r.
      destruct (cur =? "") eqn:E; [ | reflexivity ].
      apply String.eqb_eq in E. now subst.
    + intros c cur. cbn [splitlines_from].
      destruct (is_break c); [ reflexivity | ].
      destruct (_ =? "") eqn:E; [ | reflexivity ].
      apply String.eqb_eq in E. now apply append_not_empty in E.
  - split; [ exact (IH2 c') | ].
    intros c cur. rewrite splitlines_from_cons.
    destruct (is_break c).
    + destruct (Ascii.eqb c "013" && Ascii.eqb c' "010").
      * now rewrite join_empty_cons, IH1, append_assoc.
      * now rewrite join_empty_cons, IH2, append_assoc.
    + now rewrite IH2, append_assoc.
Qed.

Lemma splitlines_join text : Py.join "" (splitlines is_break text) = text.
Proof. exact (proj1 (splitlines_from_join text) EmptyString). Qed.

(** No line is empty. *)
Lemma splitlines_from_nonempty text :
  (forall cur, Forall (fun l => l <> "") (splitlines_from is_break cur text))
  /\ (forall c cur,
        Forall (fun l => l <> "") (splitlines_from is_break cur (String c text))).
Proof.
  induction text as [|c' rest [IH1 IH2]].
  - split.
    + intros cur. cbn. destruct (cur =? "") eqn:E; constructor; [ | constructor ].
      now apply String.eqb_neq.
    + intros c cur. cbn [splitlines_from].
      destruct (is_break c); cbn.
      * constructor; [ apply append_not_empty | constructor ].
      * destruct (_ =? "") eqn:E; constructor; [ | constructor ].
        now apply String.eqb_neq.
  - split; [ exact (IH2 c') | ].
    intros c cur. rewrite splitlines_from_cons.
    destruct (is_break c); [ | apply IH2 ].
    destruct (Ascii.eqb c "013" && Ascii.eqb c' "010");
      (constructor; [ apply append_not_empty | ]); [ apply IH1 | apply IH2 ].
Qed.

Lemma blocks_from_join lines : forall block,
  Py.join "" (blocks_from is_space block lines)
  = Py.join "" block ++ Py.join "" lines.
Proof.
  induction lines as [|line rest IH]; intros block; cbn [blocks_from].
  - destruct block as [|x xs]; cbn [is_nil]; [ reflexivity | ].
    now rewrite (join_empty_cons (Py.join "" (x :: xs)) []).
  - cbv zeta. rewrite (join_empty_cons line rest).
    destruct (is_blank is_space line).
    + rewrite join_empty_cons, IH, join_empty_app, (join_empty_cons line []).
      change (Py.join "" []) with "". cbn [append].
      now rewrite append_nil_r, append_assoc.
    + rewrite IH, join_empty_app, (join_empty_cons line []).
      change (Py.join "" []) with "".
      now rewrite append_nil_r, append_assoc.
Qed.

Lemma join_empty_nonempty (xs : list string) :
  xs <> [] -> Forall (fun l => l <> "") xs -> Py.join "" xs <> "".
Proof.
  intros Hne Hall. destruct xs as [|x xs]; [ now destruct Hne | ].
  rewrite join_empty_cons. inversion Hall as [|? ? Hx _]; subst.
  intros E. now apply append_empty_l in E.
Qed.

Lemma blocks_from_nonempty lines : forall block,
  Forall (fun l => l <> "") block ->
  Forall (fun l => l <> "") lines ->
  Forall (fun b => b <> "") (blocks_from is_space block lines).
Proof.
  induction lines as [|line rest IH]; intros block Hblock Hlines; cbn [blocks_from].
  - destruct block as [|x xs]; cbn [is_nil]; constructor; [ | constructor ].
    now apply join_empty_nonempty.
  - inversion Hlines as [|? ? Hline Hrest]; subst. cbv zeta.
    assert (Hall : Forall (fun l => l <> "") (block ++ [line]))
      by (apply Forall_app; split; [ exact Hblock | now constructor ]).
    destruct (is_blank is_space line).
    + constructor; [ | now apply IH ].
      apply join_empty_nonempty; [ now destruct block | exact Hall ].
    + now apply IH.
Qed.

(** How the loop groups the lines into blocks. *)
Lemma blocks_from_structure lines : forall block,
  Forall (not_blank is_space) block ->
  exists closed last,
    blocks_from is_space block lines = map (Py.join "") (closed ++ last)%list
    /\ List.concat (closed ++ last) = (block ++ lines)%list
    /\ Forall (closed_block is_space) closed
    /\ (last = [] \/ exists g, last = [g] /\ open_block is_space g).
Proof.
  induction lines as [|line rest IH]; intros block Hblock; cbn [blocks_from].
  - destruct block as [|x xs] eqn:E; cbn [is_nil].
    + exists [], []. repeat split; auto.
    + exists [], [x :: xs]. cbn. rewrite !app_nil_r.
      repeat split; auto. right. eexists. split; [ reflexivity | ].
      split; [ discriminate | exact Hblock ].
  - cbv zeta. destruct (is_blank is_space line) eqn:Hline.
    + destruct (IH [] (Forall_nil _)) as [closed [last [Hb [Hc [Hcl Hlast]]]]].
      exists ((block ++ [line])%list :: closed), last.
      split; [ cbn; now rewrite Hb | ].
      split; [ cbn; rewrite Hc; now rewrite <- app_assoc | ].
      split; [ | exact Hlast ].
      constructor; [ | exact Hcl ]. now exists block, line.
    + destruct (IH (block ++ [line])%list) as [closed [last [Hb [Hc [Hcl Hlast]]]]].
      * apply Forall_app. split; [ exact Hblock | now constructor ].
      * exists closed, last. split; [ exact Hb | ].
        split; [ now rewrite Hc, <- app_assoc | now split ].
Qed.

Lemma lstrip_first_char s c :
  first_char (lstrip is_space s) = Some c -> is_space c = false.
Proof.
  induction s as [|a rest IH]; cbn [lstrip]; [ discriminate | ].
  destruct (is_space a) eqn:Ha; [ exact IH | ].
  cbn. intros H. injection H as <-. exact Ha.
Qed.

Lemma rstrip_first_char s :
  (forall c, first_char s = Some c -> is_space c = false) ->
  forall c, first_char (rstrip is_space s) = Some c -> is_space c = false.
Proof.
  intros Hs c. destruct s as [|a rest]; cbn [rstrip]; [ discriminate | ].
  specialize (Hs a eq_refl).
  destruct (rstrip is_space rest); [ rewrite Hs | ];
    cbn; intros H; injection H as <-; exact Hs.
Qed.

Lemma rstrip_last_char s c :
  last_char (rstrip is_space s) = Some c -> is_space c = false.
Proof.
  induction s as [|a rest IH]; cbn [rstrip]; [ discriminate | ].
  destruct (rstrip is_space rest) as [|k kept] eqn:E.
  - destruct (is_space a) eqn:Ha; [ discriminate | ].
    cbn. intros H. injection H as <-. exact Ha.
  - exact IH.
Qed.

(** X1: the blocks of a text, put end to end, are the text: the split loses
    nothing and adds nothing. *)
Theorem blankline_separated_blocks_join text :
  Py.join "" (blankline_separated_blocks is_break is_space text) = text.
Proof.
  unfold blankline_separated_blocks.
  rewrite blocks_from_join. cbn [Py.join String.concat append].
  apply splitlines_join.
Qed.

(** X2: the blocks are the lines of the text taken in order in groups: every
    group but the last ends with its only blank line, the last one may be
    a run of lines with no blank line that the end of the text closed; no
    block is empty. *)
Theorem blankline_separated_blocks_structure text :
  exists closed last,
    blankline_separated_blocks is_break is_space text
    = map (Py.join "") (closed ++ last)%list
    /\ List.concat (closed ++ last) = splitlines is_break text
    /\ Forall (closed_block is_space) closed
    /\ (last = [] \/ exists g, last = [g] /\ open_block is_space g)
    /\ Forall (fun b => b <> "")
              (blankline_separated_blocks is_break is_space text).
Proof.
  destruct (blocks_from_structure (splitlines is_break text) (Forall_nil _))
    as [closed [last [Hb [Hc [Hcl Hlast]]]]].
  exists closed, last. repeat split; try assumption.
  apply blocks_from_nonempty; [ constructor | ].
  apply (proj1 (splitlines_from_nonempty text)).
Qed.

(** X3: output in which the traceback pattern changes no block comes back
    from [remove_stack_traces] as it went in. *)
Theorem remove_stack_traces_unchanged out :
  (forall block,
     In block (blankline_separated_blocks is_break is_space out) ->
     traceback_sub block = block) ->
  remove_stack_traces is_break is_space traceback_sub out = out.
Proof.
  intros Hsame. unfold remove_stack_traces.
  rewrite <- (blankline_separated_blocks_join out) at 2.
  f_equal. rewrite <- (map_id (blankline_separated_blocks _ _ out)) at 2.
  apply map_ext_in. exact Hsame.
Qed.

(** X4: what [munge_nose_output_for_doctest] returns neither starts nor ends
    with a whitespace character, whatever the three substitutions do. *)
Theorem munge_no_outer_whitespace out :
  let munged :=
    munge_nose_output_for_doctest is_break is_space
                                  traceback_sub warn_sub timing_sub out in
  (forall c, first_char munged = Some c -> is_space c = false)
  /\ (forall c, last_char munged = Some c -> is_space c = false).
Proof.
  cbv zeta. unfold munge_nose_output_for_doctest, strip. split.
  - apply rstrip_first_char. intros c. apply lstrip_first_char.
  - intros c. apply rstrip_last_char.
Qed.

End OutputFacts.

(** X3 at work: a report of one passing test has no traceback to shorten. *)
Lemma remove_stack_traces_unchanged_witness :
  remove_stack_traces Sample.is_break Sample.is_space Sample.traceback_sub
                      Sample.report
  = Sample.report.
Proof.
  apply (@remove_stack_traces_unchanged Sample.is_break Sample.is_space
           Sample.traceback_sub Sample.report).
  intros block Hin. vm_compute in Hin.
  destruct Hin as [<-|[<-|[<-|[]]]]; reflexivity.
Defined.

(** ** [doctests]: the identity of a Case *)

Lemma prefix_append (a b : string) : String.prefix a (a ++ b) = true.
Proof.
  induction a as [|c a IH]; cbn; [ now destruct b | ].
  now destruct (ascii_dec c c).
Qed.

Lemma length_append (a b : string) :
  String.length (a ++ b) = String.length a + String.length b.
Proof. induction a as [|c a IH]; cbn; [ reflexivity | now rewrite IH ]. Qed.

Lemma substring_all (s : string) : substring 0 (String.length s) s = s.
Proof. induction s as [|c s IH]; cbn; [ reflexivity | now rewrite IH ]. Qed.

Lemma substring_skip (a b : string) (n : nat) :
  substring (String.length a) n (a ++ b) = substring 0 n b.
Proof. induction a as [|c a IH]; cbn; [ reflexivity | exact IH ]. Qed.

Lemma endswith_append (a b : string) : Py.endswith (a ++ b) b = true.
Proof.
  unfold Py.endswith. rewrite length_append.
  replace (String.length a + String.length b - String.length b)
    with (String.length a) by lia.
  rewrite substring_skip, substring_all, String.eqb_refl, andb_true_r.
  apply Nat.leb_le. lia.
Qed.

Lemma endswith_refl (s : string) : Py.endswith s s = true.
Proof. exact (endswith_append "" s). Qed.

Section IdentityFacts.

Context {pyobj : Type}.
Variable getpackage : string -> option string.

Implicit Types (self : DocTestCase.t pyobj).

(** X5: for a block with a filename whose package is known, [id] is the
    block's name when the name starts with the package, and the package, a
    dot and the name when it does not; either way it starts with the package
    and ends with the name. *)
Theorem DocTestCase_id_qualified self file pk :
  filename (DocTestCase._dt_test self) = Some file ->
  getpackage file = Some pk ->
  let n := name (DocTestCase._dt_test self) in
  DocTestCase_id getpackage self
  = Ok (if String.prefix pk n then n else pk ++ "." ++ n)
  /\ exists i,
       DocTestCase_id getpackage self = Ok i
       /\ String.prefix pk i = true
       /\ Py.endswith i n = true.
Proof.
  intros Hfile Hpk n. subst n. unfold DocTestCase_id. rewrite Hfile, Hpk.
  destruct (String.prefix pk (name (DocTestCase._dt_test self))) eqn:Hp;
    cbn [negb]; (split; [ reflexivity | ]); eexists;
    (split; [ reflexivity | ]).
  - split; [ exact Hp | apply endswith_refl ].
  - split; [ apply prefix_append | ].
    rewrite <- append_assoc. apply endswith_append.
Qed.

(** X6: qualifying is done once: a Case whose block is named by the [id] of
    another, all else equal, has that same [id]. *)
Theorem DocTestCase_id_stable self i :
  DocTestCase_id getpackage self = Ok i ->
  DocTestCase_id getpackage (renamed self i) = Ok i.
Proof.
  unfold DocTestCase_id, renamed. cbn [DocTestCase._dt_test name filename].
  destruct (filename (DocTestCase._dt_test self)) as [file|];
    [ | now intros H ].
  destruct (getpackage file) as [pk|]; [ | discriminate ].
  destruct (String.prefix pk (name (DocTestCase._dt_test self))) eqn:Hp;
    cbn [negb]; intros H; injection H as <-.
  - now rewrite Hp.
  - now rewrite prefix_append.
Qed.

(** X7: a Case whose [id] is [owner.leaf], with no dot in [leaf], prints as
    [leaf (owner)] and is described as [Doctest: owner.leaf]. *)
Theorem DocTestCase_repr_format self owner leaf :
  DocTestCase_id getpackage self = Ok (owner ++ "." ++ leaf) ->
  ~ In "."%char (list_ascii_of_string leaf) ->
  DocTestCase_repr getpackage self = Ok (leaf ++ " (" ++ owner ++ ")")
  /\ DocTestCase_shortDescription getpackage self
     = Ok ("Doctest: " ++ owner ++ "." ++ leaf).
Proof.
  intros Hid Hleaf. unfold DocTestCase_repr, DocTestCase_shortDescription.
  rewrite Hid. destruct (@split_owner_leaf owner leaf Hleaf) as [Hjoin Hlast].
  now rewrite Hlast, Hjoin.
Qed.

End IdentityFacts.

(** X5 at work: the block [f] of [pkg/mod.py] is known as [pkg.mod.f]. *)
Lemma DocTestCase_id_qualified_witness :
  DocTestCase_id Sample.getpackage Sample.case_f = Ok "pkg.mod.f"
  /\ exists i,
       DocTestCase_id Sample.getpackage Sample.case_f = Ok i
       /\ String.prefix "pkg.mod" i = true
       /\ Py.endswith i "f" = true.
Proof.
  exact (@DocTestCase_id_qualified _ Sample.getpackage Sample.case_f
           "pkg/mod.py" "pkg.mod" eq_refl eq_refl).
Defined.

(** X6 at work: naming the block [pkg.mod.f] changes nothing. *)
Lemma DocTestCase_id_stable_witness :
  DocTestCase_id Sample.getpackage (renamed Sample.case_f "pkg.mod.f")
  = Ok "pkg.mod.f".
Proof.
  exact (@DocTestCase_id_stable _ Sample.getpackage Sample.case_f
           "pkg.mod.f" eq_refl).
Defined.

(** X7 at work: the property of scenario B prints as [p (pkg.mod.C)]. *)
Lemma DocTestCase_repr_format_witness :
  DocTestCase_repr Sample.getpackage Sample.case_p = Ok "p (pkg.mod.C)"
  /\ DocTestCase_shortDescription Sample.getpackage Sample.case_p
     = Ok "Doctest: pkg.mod.C.p".
Proof.
  refine (@DocTestCase_repr_format _ Sample.getpackage Sample.case_p
            "pkg.mod.C" "p" eq_refl _).
  cbn. intros [H|[]]. discriminate H.
Defined.

(** ** [doctests]: the debugger and tracing *)

Lemma app_snoc_split {A} (pre post l : list A) (x y : A) :
  (pre ++ x :: post = l ++ [y])%list ->
  (post = [] /\ pre = l /\ x = y)
  \/ (exists post', post = (post' ++ [y])%list /\ l = (pre ++ x :: post')%list).
Proof.
  intros H. destruct (rev post) as [|z rpost] eqn:E.
  - left. apply (f_equal (@rev A)) in E. rewrite rev_involutive in E.
    cbn in E. subst post. apply app_inj_tail in H as [H1 H2]. now split.
  - right. apply (f_equal (@rev A)) in E. rewrite rev_involutive in E.
    cbn in E. subst post. exists (rev rpost).
    change (pre ++ x :: rev rpost ++ [z])%list
      with (pre ++ (x :: rev rpost) ++ [z])%list in H.
    rewrite app_assoc in H. apply app_inj_tail in H as [H1 H2].
    subst z. now split.
Qed.

Lemma Pdb_call_guarded p m : Pdb_guarded p -> Pdb_guarded (Pdb_call p m).
Proof.
  intros Hp. pose proof Hp as [Hflag Hseq]. destruct m; cbn [Pdb_call].
  - unfold Pdb_set_trace. split; cbn [__debugger_used base_calls].
    + split; [ intros _; apply in_or_app; right; now left | reflexivity ].
    + intros pre post H. symmetry in H.
      apply app_snoc_split in H as [[_ [_ H]]|[post' [_ H]]];
        [ discriminate H | ].
      now apply (Hseq pre post').
  - unfold Pdb_set_continue. destruct (__debugger_used p) eqn:Hused;
      [ | exact Hp ].
    split; cbn [__debugger_used base_calls].
    + split.
      * intros _. apply in_or_app. left. now apply Hflag.
      * intros _. reflexivity.
    + intros pre post H. symmetry in H.
      apply app_snoc_split in H as [[_ [-> _]]|[post' [_ H]]].
      * now apply Hflag.
      * now apply (Hseq pre post').
Qed.

Lemma Pdb_fold_guarded calls : forall p,
  Pdb_guarded p -> Pdb_guarded (fold_left Pdb_call calls p).
Proof.
  induction calls as [|m rest IH]; intros p Hp; [ exact Hp | ].
  cbn [fold_left]. apply IH. now apply Pdb_call_guarded.
Qed.

Lemma Pdb_fold_untraced calls : forall p,
  __debugger_used p = false ->
  ~ In CallSetTrace calls ->
  fold_left Pdb_call calls p = p.
Proof.
  induction calls as [|m rest IH]; intros p Hp Hno; [ reflexivity | ].
  cbn [fold_left]. destruct m.
  - exfalso. apply Hno. now left.
  - cbn [Pdb_call]. unfold Pdb_set_continue. rewrite Hp.
    apply IH; [ exact Hp | intros H; apply Hno; now right ].
Qed.

(** X8: whatever methods of a [NoseOutputRedirectingPdb] are called, in
    whatever order, the base class is asked to continue (the call that turns
    tracing off) only after it was asked to set a trace; and when
    [set_trace] is never called, nothing at all is asked of the base class
    after its constructor. *)
Theorem Pdb_set_continue_only_after_set_trace calls :
  (forall pre post,
     base_calls (Pdb_run calls) = (pre ++ OrpSetContinue :: post)%list ->
     In OrpSetTrace pre)
  /\ (~ In CallSetTrace calls -> base_calls (Pdb_run calls) = [OrpInit]).
Proof.
  split.
  - apply (Pdb_fold_guarded calls (p := Pdb_init)). split.
    + cbn. split; [ discriminate | intros [H|[]]; discriminate H ].
    + intros pre post H. cbn in H.
      destruct pre as [|x [|y pre]]; cbn in H; discriminate H.
  - intros Hno. unfold Pdb_run. now rewrite Pdb_fold_untraced.
Qed.

(** X8 at work: two calls of [set_continue] with no [set_trace] before them
    leave the base class alone. *)
Lemma Pdb_set_continue_only_after_set_trace_witness :
  base_calls (Pdb_run [CallSetContinue; CallSetContinue]) = [OrpInit].
Proof.
  apply (proj2 (Pdb_set_continue_only_after_set_trace
                  [CallSetContinue; CallSetContinue])).
  intros [H|[H|[]]]; discriminate H.
Defined.

(** ** The loaders at their edges *)

Section LoaderEdges.

Context {regex matchobj pyobj Suite : Type}.
Variable search : regex -> string -> option matchobj.

Implicit Types (self : @Doctest regex matchobj pyobj Suite) (module : Module).
Implicit Types (obj parent : pyobj) (file : string).

(** X9: a module whose name [matches] does not accept yields nothing; the
    refusal is written to the log and the finder is not asked, so that even a
    finder that would fail does no harm. *)
Theorem loadTestsFromModule_unwanted self module st :
  truthy (matches search self (__name__ module)) = false ->
  forall find_module src,
    loadTestsFromModule search find_module src self module st
    = (Ok [], mkState (sys_path st) (log st ++ [DoesntWantModule module])).
Proof.
  intros Hno find_module src. now rewrite loadTestsFromModule_eq, Hno.
Qed.

(** X10: when the finder fails on a wanted module, an [AttributeError] (a
    module with [__test__ = False]) is taken as "no doctests" and any other
    exception reaches the caller; the state is untouched either way. *)
Theorem loadTestsFromModule_finder_fails self module st find_module src e :
  truthy (matches search self (__name__ module)) = true ->
  find_module module = Raise e ->
  loadTestsFromModule search find_module src self module st
  = (if is_AttributeError e then Ok [] else Raise e, st).
Proof.
  intros Hyes Hfind. rewrite loadTestsFromModule_eq, Hyes, Hfind.
  now destruct (is_AttributeError e).
Qed.

(** X11: a file with none of the configured extensions, and so every file
    when no extension is configured, yields nothing from [loadTestsFromFile],
    which does not even open it; [wantFile] accepts such a file only for its
    [.py] ending. *)
Theorem no_extension_no_file_tests self file st :
  has_extension self file = false ->
  (forall open_read basename dirname splitext import_ get_examples,
     loadTestsFromFile open_read basename dirname splitext import_ get_examples
                       self file st
     = (Ok [], st))
  /\ wantFile search self file
     = if Py.endswith file ".py" then VBool true else VNone.
Proof.
  intros Hext. split.
  - intros. now rewrite loadTestsFromFile_eq, Hext.
  - rewrite wantFile_eq. unfold spec_wantsFile. rewrite Hext.
    cbn [andb]. now rewrite orb_false_r.
Qed.

(** X12: a file with a configured extension that cannot be opened makes
    [loadTestsFromFile] fail with the error of [open], before [sys.path] is
    touched or anything is logged. *)
Theorem loadTestsFromFile_open_fails self file st e
    open_read basename dirname splitext import_ get_examples :
  has_extension self file = true ->
  open_read file = Raise e ->
  loadTestsFromFile open_read basename dirname splitext import_ get_examples
                    self file st
  = (Raise e, st).
Proof.
  intros Hext Hopen. now rewrite loadTestsFromFile_eq, Hext, Hopen.
Qed.

(** X13: with a fixture suffix configured, each extraction from a readable
    file with a configured extension appends the directory of the file to
    [sys.path] and leaves it there, whether the fixture module imports or
    not and whether the file parses or not; a second extraction appends it
    a second time. *)
Theorem loadTestsFromFile_extends_sys_path self file st suffix doc
    open_read basename dirname splitext import_ get_examples :
  has_extension self file = true ->
  open_read file = Ok doc ->
  fixtures self = Some suffix ->
  suffix <> "" ->
  let run := loadTestsFromFile open_read basename dirname splitext import_
                               get_examples self file in
  sys_path (snd (run st)) = (sys_path st ++ [dirname file])%list
  /\ sys_path (snd (run (snd (run st))))
     = (sys_path st ++ [dirname file; dirname file])%list.
Proof.
  intros Hext Hopen Hfix Hne run.
  assert (Hone : forall st0,
             sys_path (snd (run st0)) = (sys_path st0 ++ [dirname file])%list).
  { intros st0. subst run.
    rewrite loadTestsFromFile_eq, Hext, Hopen, fixture_lookup_eq, Hfix.
    apply String.eqb_neq in Hne. rewrite Hne. cbv zeta.
    destruct (import_ _ _) as [m|e]; [ | destruct (is_ImportError e) ];
      try reflexivity;
      destruct (get_examples doc (basename file)) as [[|x xs]|e'];
      reflexivity. }
  split; [ apply Hone | ].
  rewrite Hone, Hone, <- app_assoc. reflexivity.
Qed.

(** X14: no loader takes an entry off [sys.path] or reorders it: the module
    scan and [makeTest] leave it as it is, and file extraction only adds
    at its end. *)
Theorem loaders_keep_sys_path self st :
  (forall find_module src module,
     sys_path (snd (loadTestsFromModule search find_module src self module st))
     = sys_path st)
  /\ (forall find_obj getmodule getattr_name type_str obj parent,
        sys_path (snd (makeTest find_obj getmodule getattr_name type_str
                                self obj parent st))
        = sys_path st)
  /\ (forall open_read basename dirname splitext import_ get_examples file,
        exists added,
          sys_path (snd (loadTestsFromFile open_read basename dirname splitext
                                           import_ get_examples self file st))
          = (sys_path st ++ added)%list).
Proof.
  split; [ | split ].
  - intros. rewrite loadTestsFromModule_eq.
    destruct (truthy _); [ | reflexivity ].
    destruct (find_module module) as [tests|e].
    + destruct (is_nil tests); [ reflexivity | ].
      destruct (__file__ module) as [file|]; [ | reflexivity ].
      cbv zeta. now destruct (is_nil (surviving_cases _ _)).
    + now destruct (is_AttributeError e).
  - intros. rewrite makeTest_eq. cbv zeta. now destruct (find_obj _ _ _).
  - intros. rewrite loadTestsFromFile_eq.
    destruct (has_extension self file); [ | exists []; now rewrite app_nil_r ].
    destruct (open_read file) as [doc|e]; [ | exists []; now rewrite app_nil_r ].
    rewrite fixture_lookup_eq.
    destruct (fixtures self) as [suffix|].
    + destruct (suffix =? "").
      * exists []. rewrite app_nil_r.
        destruct (get_examples doc (basename file)) as [[|x xs]|e']; reflexivity.
      * exists [dirname file]. cbv zeta.
        destruct (import_ _ _) as [m|e]; [ | destruct (is_ImportError e) ];
          try reflexivity;
          destruct (get_examples doc (basename file)) as [[|x xs]|e'];
          reflexivity.
    + exists []. rewrite app_nil_r.
      destruct (get_examples doc (basename file)) as [[|x xs]|e']; reflexivity.
Qed.

(** X15: every Case that [makeTest] makes for an entity is addressed as that
    entity: [address] gives [test_address] of it, whatever the name of the
    block resolves to. *)
Theorem makeTest_cases_addressed_as_entity self obj parent st cs st'
    find_obj getmodule getattr_name type_str :
  makeTest find_obj getmodule getattr_name type_str self obj parent st
  = (Ok cs, st') ->
  forall c, In c cs ->
  forall test_address resolve_name isproperty,
    DocTestCase.address test_address resolve_name isproperty c
    = test_address obj.
Proof.
  intros Hmake c Hc test_address resolve_name isproperty.
  rewrite makeTest_eq in Hmake. cbv zeta in Hmake.
  destruct (find_obj _ _ _) as [doctests|e]; [ | discriminate Hmake ].
  injection Hmake as <- _.
  apply in_map_iff in Hc as [t [<- _]]. reflexivity.
Qed.

End LoaderEdges.

(** X9 at work: [test_mod] looks like a test module and is refused, also
    with a finder that fails. *)
Lemma loadTestsFromModule_unwanted_witness :
  loadTestsFromModule Demo.search Sample.find_opted_out Demo.src
                      Demo.plugin Sample.test_mod Demo.st0
  = (Ok [], mkState ["."] [DoesntWantModule Sample.test_mod]).
Proof.
  exact (@loadTestsFromModule_unwanted _ _ _ _ Demo.search Demo.plugin
           Sample.test_mod Demo.st0 eq_refl Sample.find_opted_out Demo.src).
Defined.

(** X10 at work: [pkg.mod] is wanted, and a finder that raises
    [AttributeError] on it gives no Group and no error. *)
Lemma loadTestsFromModule_finder_fails_witness :
  loadTestsFromModule Demo.search Sample.find_opted_out Demo.src
                      Demo.plugin Demo.pkg_mod Demo.st0
  = (Ok [], Demo.st0).
Proof.
  exact (@loadTestsFromModule_finder_fails _ _ _ _ Demo.search Demo.plugin
           Demo.pkg_mod Demo.st0 Sample.find_opted_out Demo.src
           AttributeError eq_refl eq_refl).
Defined.

(** X11 at work: [notes.rst] has no enabled extension and is not wanted. *)
Lemma no_extension_no_file_tests_witness :
  loadTestsFromFile Demo.open_read Demo.basename Demo.dirname Demo.splitext
                    Demo.import_ Demo.get_examples
                    Demo.plugin "notes.rst" Demo.st0
  = (Ok [], Demo.st0)
  /\ wantFile Demo.search Demo.plugin "notes.rst" = VNone.
Proof.
  destruct (@no_extension_no_file_tests _ _ _ _ Demo.search Demo.plugin
              "notes.rst" Demo.st0 eq_refl) as [Hload Hwant].
  split; [ apply Hload | exact Hwant ].
Defined.

(** X12 at work: [docs/missing.txt] does not exist. *)
Lemma loadTestsFromFile_open_fails_witness :
  loadTestsFromFile Demo.open_read Demo.basename Demo.dirname Demo.splitext
                    Demo.import_ Demo.get_examples
                    Demo.plugin_fixt "docs/missing.txt" Demo.st0
  = (Raise (IOError "docs/missing.txt"), Demo.st0).
Proof.
  exact (@loadTestsFromFile_open_fails _ _ _ _ Demo.plugin_fixt
           "docs/missing.txt" Demo.st0 (IOError "docs/missing.txt")
           Demo.open_read Demo.basename Demo.dirname Demo.splitext
           Demo.import_ Demo.get_examples eq_refl eq_refl).
Defined.

(** X13 at work: two extractions from [docs/intro.txt], whose fixture module
    does not exist, leave [docs] twice on [sys.path]. *)
Lemma loadTestsFromFile_extends_sys_path_witness :
  let run := loadTestsFromFile Demo.open_read Demo.basename Demo.dirname
                               Demo.splitext Demo.import_ Demo.get_examples
                               Demo.plugin_fixt "docs/intro.txt" in
  sys_path (snd (run Demo.st0)) = ["."; "docs"]
  /\ sys_path (snd (run (snd (run Demo.st0)))) = ["."; "docs"; "docs"].
Proof.
  exact (@loadTestsFromFile_extends_sys_path _ _ _ _ Demo.plugin_fixt
           "docs/intro.txt" Demo.st0 "_fixt" ">>> 1+1"
           Demo.open_read Demo.basename Demo.dirname Demo.splitext
           Demo.import_ Demo.get_examples
           eq_refl eq_refl eq_refl ltac:(discriminate)).
Defined.

(** X15 at work: the Case made for the class [C] is addressed as [C], though
    its block is the one of the property [pkg.mod.C.p]. *)
Lemma makeTest_cases_addressed_as_entity_witness :
  DocTestCase.address Demo.test_address Demo.resolve_name Demo.isproperty
                      (DocTestCase.init Demo.test_p (Some Demo.ClassC))
  = Ok (Some "pkg/mod.py", Some "pkg.mod", Some "C").
Proof.
  refine (@makeTest_cases_addressed_as_entity _ _ _ _ Demo.plugin
            Demo.ClassC Demo.TheModule Demo.st0 _ _
            Demo.find_obj Demo.getmodule Demo.getattr_name Demo.type_str
            eq_refl _ _ Demo.test_address Demo.resolve_name Demo.isproperty).
  now left.
Defined.

(** ** The Cases of a module, in order *)

Lemma compare_not_Gt_trans (a b c : string) :
  String.compare a b <> Gt -> String.compare b c <> Gt -> String.compare a c <> Gt.
Proof.
  intros Hab Hbc.
  destruct (String.compare a b) eqn:Eab; [ | | now destruct Hab ].
  - apply String.compare_eq_iff in Eab. now subst.
  - destruct (String.compare b c) eqn:Ebc; [ | | now destruct Hbc ].
    + apply String.compare_eq_iff in Ebc. subst. now rewrite Eab.
    + apply OrderedTypeEx.String_as_OT.cmp_lt in Eab, Ebc.
      pose proof (@OrderedTypeEx.String_as_OT.lt_trans a b c Eab Ebc) as Hac.
      apply OrderedTypeEx.String_as_OT.cmp_lt in Hac.
      unfold OrderedTypeEx.String_as_OT.cmp in Hac. now rewrite Hac.
Qed.

Lemma leb_trans (a b c : string) :
  String.leb a b = true -> String.leb b c = true -> String.leb a c = true.
Proof.
  unfold String.leb. intros Hab Hbc.
  assert (H : String.compare a c <> Gt).
  { apply (@compare_not_Gt_trans a b c).
    - now destruct (String.compare a b).
    - now destruct (String.compare b c). }
  now destruct (String.compare a c).
Qed.

Lemma DocTest_cmp_Lt_name t x :
  DocTest_cmp t x = Lt -> String.leb (name t) (name x) = true.
Proof.
  unfold DocTest_cmp, String.leb.
  destruct (String.compare (name t) (name x)); [ reflexivity | reflexivity | ].
  discriminate.
Qed.

Lemma DocTest_cmp_not_Lt_name t x :
  DocTest_cmp t x <> Lt -> String.leb (name x) (name t) = true.
Proof.
  unfold DocTest_cmp, String.leb. rewrite (String.compare_antisym (name x)).
  destruct (String.compare (name t) (name x)); cbn; [ reflexivity | | reflexivity ].
  intros H. now destruct H.
Qed.

Lemma insert_sorted_StronglySorted t l :
  StronglySorted block_name_le l ->
  StronglySorted block_name_le (insert_sorted t l).
Proof.
  induction l as [|x rest IH]; intros Hl; cbn [insert_sorted].
  - repeat constructor.
  - inversion Hl as [|? ? Hrest Hx]; subst.
    destruct (DocTest_cmp t x) eqn:E.
    + constructor; [ now apply IH | ].
      apply (Permutation_Forall (Permutation_sym (insert_sorted_Permutation t rest))).
      constructor; [ | exact Hx ].
      apply DocTest_cmp_not_Lt_name. now rewrite E.
    + constructor; [ exact Hl | ].
      pose proof (DocTest_cmp_Lt_name _ _ E) as Htx.
      constructor; [ exact Htx | ].
      eapply Forall_impl; [ | exact Hx ].
      intros y Hy. exact (leb_trans _ _ _ Htx Hy).
    + constructor; [ now apply IH | ].
      apply (Permutation_Forall (Permutation_sym (insert_sorted_Permutation t rest))).
      constructor; [ | exact Hx ].
      apply DocTest_cmp_not_Lt_name. now rewrite E.
Qed.

Lemma sort_StronglySorted tests : StronglySorted block_name_le (sort tests).
Proof.
  unfold sort.
  assert (H : forall acc, StronglySorted block_name_le acc ->
                StronglySorted block_name_le
                  (fold_left (fun acc t => insert_sorted t acc) tests acc)).
  { induction tests as [|t rest IH]; intros acc Hacc; [ exact Hacc | ].
    cbn [fold_left]. apply IH. now apply insert_sorted_StronglySorted. }
  apply H. constructor.
Qed.

Lemma StronglySorted_filter {A} (R : A -> A -> Prop) (f : A -> bool) l :
  StronglySorted R l -> StronglySorted R (filter f l).
Proof.
  induction 1 as [|x l Hl IH Hx]; cbn [filter]; [ constructor | ].
  destruct (f x); [ | exact IH ].
  constructor; [ exact IH | ].
  apply Forall_forall. intros y Hy. apply filter_In in Hy as [Hy _].
  rewrite Forall_forall in Hx. now apply Hx.
Qed.

Lemma StronglySorted_map {A B} (R : A -> A -> Prop) (Q : B -> B -> Prop)
    (f : A -> B) l :
  (forall x y, R x y -> Q (f x) (f y)) ->
  StronglySorted R l -> StronglySorted Q (map f l).
Proof.
  intros HRQ. induction 1 as [|x l Hl IH Hx]; cbn [map]; constructor.
  - exact IH.
  - apply Forall_forall. intros y Hy. apply in_map_iff in Hy as [z [<- Hz]].
    rewrite Forall_forall in Hx. now apply HRQ, Hx.
Qed.

Lemma backfill_name module_file t : name (backfill module_file t) = name t.
Proof. unfold backfill. now destruct (no_filename t). Qed.

Lemma backfill_has_filename f t :
  f <> "" -> no_filename (backfill (Some f) t) = false.
Proof.
  intros Hf. unfold backfill. destruct (no_filename t) eqn:E; [ | exact E ].
  unfold no_filename, set_filename. cbn. now apply String.eqb_neq.
Qed.

Section ModuleGroupFacts.

Context {regex matchobj pyobj Suite : Type}.
Variable search : regex -> string -> option matchobj.
Variable find_module : Module -> result (list DocTest).
Variable src : option string -> option string.

Implicit Types (self : @Doctest regex matchobj pyobj Suite) (module : Module).

Lemma surviving_cases_sorted module_file tests :
  StronglySorted (case_name_le (pyobj := pyobj))
                 (surviving_cases module_file (sort tests)).
Proof.
  unfold surviving_cases.
  apply (@StronglySorted_map _ _ block_name_le).
  - intros x y Hxy. unfold case_name_le, block_name_le in *. cbn.
    now rewrite !backfill_name.
  - apply StronglySorted_filter, sort_StronglySorted.
Qed.

(** X16: the Cases of the Group of a module come in ascending order of the
    names of their blocks, each name no greater than all that follow. *)
Theorem module_cases_sorted_by_name self module st ys st' :
  loadTestsFromModule search find_module src self module st = (Ok ys, st') ->
  ys = [] \/
  exists cases,
    ys = [suiteClass self cases (Some module) false]
    /\ StronglySorted case_name_le cases.
Proof.
  intros H. rewrite loadTestsFromModule_eq in H.
  destruct (truthy _); [ | left; congruence ].
  destruct (find_module module) as [tests|e].
  - destruct (is_nil tests); [ left; congruence | ].
    destruct (__file__ module) as [file|]; [ | discriminate H ].
    cbv zeta in H.
    destruct (is_nil (surviving_cases _ _)); [ left; congruence | ].
    right. eexists. split; [ symmetry; injection H as H _; exact H | ].
    apply surviving_cases_sorted.
  - destruct (is_AttributeError e); [ left; congruence | discriminate H ].
Qed.

(** X17: no Case of the Group of a module carries an originating entity,
    so that its address goes by the name of its block; and when the module
    has a source file, every Case has a filename, its own or that file. *)
Theorem module_cases_have_file_and_no_entity self module st ys st' :
  loadTestsFromModule search find_module src self module st = (Ok ys, st') ->
  ys = [] \/
  exists cases,
    ys = [suiteClass self cases (Some module) false]
    /\ forall c, In c cases ->
         DocTestCase._nose_obj c = None
         /\ forall file f,
              __file__ module = Some file -> src file = Some f -> f <> "" ->
              no_filename (DocTestCase._dt_test c) = false.
Proof.
  intros H. rewrite loadTestsFromModule_eq in H.
  destruct (truthy _); [ | left; congruence ].
  destruct (find_module module) as [tests|e].
  - destruct (is_nil tests); [ left; congruence | ].
    destruct (__file__ module) as [file0|]; [ | discriminate H ].
    cbv zeta in H.
    destruct (is_nil (surviving_cases _ _)); [ left; congruence | ].
    right. eexists. split; [ symmetry; injection H as H _; exact H | ].
    intros c Hc. apply surviving_cases_In in Hc as [t [_ [_ ->]]].
    split; [ reflexivity | ].
    intros file f Hfile Hf Hne. injection Hfile as <-. cbn.
    rewrite Hf. now apply backfill_has_filename.
  - destruct (is_AttributeError e); [ left; congruence | discriminate H ].
Qed.

End ModuleGroupFacts.

(** X16 at work: the two Cases of [pkg.mod], found as [p], [f], come out as
    [pkg.mod.C.p], [pkg.mod.f]. *)
Lemma module_cases_sorted_by_name_witness :
  let ys :=
    [DoctestSuite.init
       [DocTestCase.init Demo.test_p None;
        DocTestCase.init (backfill (Some "pkg/mod.py") Demo.test_f) None]
       (Some Demo.pkg_mod) false] in
  ys = [] \/
  exists cases,
    ys = [suiteClass Demo.plugin cases (Some Demo.pkg_mod) false]
    /\ StronglySorted case_name_le cases.
Proof.
  exact (@module_cases_sorted_by_name _ _ _ _ Demo.search Demo.find_module
           Demo.src Demo.plugin Demo.pkg_mod Demo.st0 _ _ eq_refl).
Defined.

(** X17 at work: the same two Cases have no entity and the file
    [pkg/mod.py]. *)
Lemma module_cases_have_file_and_no_entity_witness :
  let ys :=
    [DoctestSuite.init
       [DocTestCase.init Demo.test_p None;
        DocTestCase.init (backfill (Some "pkg/mod.py") Demo.test_f) None]
       (Some Demo.pkg_mod) false] in
  ys = [] \/
  exists cases,
    ys = [suiteClass Demo.plugin cases (Some Demo.pkg_mod) false]
    /\ forall c, In c cases ->
         DocTestCase._nose_obj c = None
         /\ forall file f,
              __file__ Demo.pkg_mod = Some file -> Demo.src file = Some f ->
              f <> "" ->
              no_filename (DocTestCase._dt_test c) = false.
Proof.
  exact (@module_cases_have_file_and_no_entity _ _ _ _ Demo.search
           Demo.find_module Demo.src Demo.plugin Demo.pkg_mod Demo.st0 _ _
           eq_refl).
Defined.

Section DoctestSuiteFacts.

Context {regex matchobj pyobj : Type}.
Variable search : regex -> string -> option matchobj.
Variable find_module : Module -> result (list DocTest).
Variable src : option string -> option string.

(** X18: with the suite class [DoctestSuite], the Group a module scan yields
    is addressed as the module itself, not as any of its Cases, and
    iterating it gives its Cases, at least one, in ascending order of
    name. *)
Theorem module_group_addressed_as_module
    (self : @Doctest regex matchobj pyobj (DoctestSuite.t (DocTestCase.t pyobj)))
    module st ys st' :
  suiteClass self = DoctestSuite.init ->
  loadTestsFromModule search find_module src self module st = (Ok ys, st') ->
  forall g, In g ys ->
    (forall test_address,
       DoctestSuite_address test_address g = test_address (Some module))
    /\ DoctestSuite.iter g <> []
    /\ StronglySorted case_name_le (DoctestSuite.iter g).
Proof.
  intros Hclass H g Hg. rewrite loadTestsFromModule_eq in H.
  destruct (truthy _); [ | injection H as <- _; destruct Hg ].
  destruct (find_module module) as [tests|e].
  - destruct (is_nil tests); [ injection H as <- _; destruct Hg | ].
    destruct (__file__ module) as [file|]; [ | discriminate H ].
    cbv zeta in H. destruct (is_nil (surviving_cases _ _)) eqn:Hnil;
      [ injection H as <- _; destruct Hg | ].
    injection H as <- _. destruct Hg as [<-|[]]. rewrite Hclass.
    split; [ reflexivity | ]. cbn.
    split; [ now apply is_nil_false | apply surviving_cases_sorted ].
  - destruct (is_AttributeError e);
      [ injection H as <- _; destruct Hg | discriminate H ].
Qed.

End DoctestSuiteFacts.

(** X18 at work: the Group of [pkg.mod] has the address of [pkg.mod]. *)
Lemma module_group_addressed_as_module_witness :
  DoctestSuite_address
    (fun ctx => match ctx with
                | Some m =>
                    Ok (match __file__ m with Some f => f | None => None end,
                        Some (__name__ m), None)
                | None => Ok (None, None, None)
                end)
    (DoctestSuite.init (T := DocTestCase.t Demo.obj)
       [DocTestCase.init Demo.test_p None;
        DocTestCase.init (backfill (Some "pkg/mod.py") Demo.test_f) None]
       (Some Demo.pkg_mod) false)
  = Ok (Some "pkg/mod.pyc", Some "pkg.mod", None).
Proof.
  refine (proj1 (@module_group_addressed_as_module _ _ _ Demo.search
                   Demo.find_module Demo.src Demo.plugin Demo.pkg_mod
                   Demo.st0 _ _ eq_refl eq_refl _ _) _).
  now left.
Defined.

(** ** Addresses that cannot be computed *)

Section AddressFailures.

Context {pyobj : Type}.
Variable test_address : pyobj -> result Address.
Variable resolve_name : string -> result pyobj.
Variable isproperty : pyobj -> bool.

(** X19: for a Case with no entity, [address] makes up nothing: it fails
    with the error of the name lookup when the name of the block does not
    resolve, with the error of the second lookup when the block is on a
    property and the name less its last part does not resolve, and
    with a [TypeError] when that name resolves to something whose address has
    no call path to extend. *)
Theorem DocTestCase_address_failures (self : DocTestCase.t pyobj) :
  DocTestCase._nose_obj self = None ->
  let n := name (DocTestCase._dt_test self) in
  let owner := Py.join "." (Py.but_last (Py.split "." n)) in
  (forall e,
     resolve_name n = Raise e ->
     DocTestCase.address test_address resolve_name isproperty self = Raise e)
  /\ (forall obj e,
        resolve_name n = Ok obj -> isproperty obj = true ->
        resolve_name owner = Raise e ->
        DocTestCase.address test_address resolve_name isproperty self = Raise e)
  /\ (forall obj cls file module,
        resolve_name n = Ok obj -> isproperty obj = true ->
        resolve_name owner = Ok cls ->
        test_address cls = Ok (file, module, None) ->
        DocTestCase.address test_address resolve_name isproperty self
        = Raise TypeError).
Proof.
  intros Hobj n owner. subst n owner. unfold DocTestCase.address.
  rewrite Hobj. split; [ | split ].
  - intros e He. now rewrite He.
  - intros obj e Hres Hprop Hcls. now rewrite Hres, Hprop, Hcls.
  - intros obj cls file module Hres Hprop Hcls Haddr.
    rewrite Hres, Hprop, Hcls, Haddr.
    destruct (split_from_last_item "."%char (name (DocTestCase._dt_test self))
                                   EmptyString) as [leaf Hleaf].
    unfold DocTestCase.leaf_of, Py.split. now rewrite Hleaf.
Qed.

End AddressFailures.

(** X19 at work: a block named [pkg.gone.f], in a module that is no longer
    there, has no address. *)
Lemma DocTestCase_address_failures_witness :
  DocTestCase.address Demo.test_address Demo.resolve_name Demo.isproperty
    (DocTestCase.init
       (mkDocTest [Demo.one_plus_one] [] "pkg.gone.f" None None "") None)
  = Raise (ImportError "pkg.gone.f").
Proof.
  exact (proj1 (@DocTestCase_address_failures _ Demo.test_address
                  Demo.resolve_name Demo.isproperty
                  (DocTestCase.init
                     (mkDocTest [Demo.one_plus_one] [] "pkg.gone.f" None None "")
                     None)
                  eq_refl)
               (ImportError "pkg.gone.f") eq_refl).
Defined.

(** ** [plugintest.run] *)

Section RunFacts.

Context {plugin manager env settings args : Type}.
Variable PluginManager : list plugin -> manager.
Variable empty_env : env.
Variable Config : env -> manager -> @NoseConfig settings.
Variable warn : string -> W unit.
Variable munge : string -> string.

Implicit Types (kw : @Kw plugin manager env settings) (arg : args) (w : World).
Implicit Types (nose_run : args -> @Kw plugin manager env settings -> W unit).

Lemma run_keywords_normal buffer kw :
  normal_kw buffer
    (snd (pop_buffer_all (run_keywords PluginManager empty_env Config buffer kw))).
Proof.
  unfold normal_kw, pop_buffer_all, run_keywords. cbn [snd].
  destruct kw as [[c|] p e [a|] b]; cbn; repeat split; eauto; discriminate.
Qed.

Lemma run_keywords_buffer_all buffer kw :
  kw_buffer_all (run_keywords PluginManager empty_env Config buffer kw)
  = kw_buffer_all kw.
Proof.
  unfold run_keywords. now destruct kw as [[c|] p e [a|] b].
Qed.

(** What [run] does when [buffer_all] is true. *)
Lemma run_buffer_all_eq nose_run arg kw w :
  kw_buffer_all kw = Some true ->
  let b := next_stream w in
  let kw' := snd (pop_buffer_all
                    (run_keywords PluginManager empty_env Config b kw)) in
  let w1 := mkWorld b b (fun s => if Nat.eqb s b then "" else written w s) (S b) in
  run PluginManager empty_env Config nose_run warn munge arg kw w
  = match nose_run arg kw' w1 with
    | (Ok _, w2) => print (munge (written w2 b)) (restored w w2)
    | (Raise e, w2) => (Raise e, restored w w2)
    end.
Proof.
  intros Hall b kw' w1. subst kw' w1.
  unfold run, bindW at 1, new_StringIO. fold b.
  pose proof (run_keywords_buffer_all b kw) as Hb. rewrite Hall in Hb.
  unfold pop_buffer_all at 1. rewrite Hb.
  unfold pop_buffer_all. cbn [snd].
  unfold bindW, get_stderr, get_stdout, set_stdout, set_stderr, retW,
    try_finally, stream_getvalue.
  cbn [sys_stdout sys_stderr written next_stream].
  destruct (nose_run _ _ _) as [[[]|e] w2]; reflexivity.
Qed.

(** What [run] does when [buffer_all] is absent or false. *)
Lemma run_unbuffered_eq nose_run arg kw w :
  kw_buffer_all kw = None \/ kw_buffer_all kw = Some false ->
  let b := next_stream w in
  let kw' := snd (pop_buffer_all
                    (run_keywords PluginManager empty_env Config b kw)) in
  let w1 := mkWorld (sys_stdout w) (sys_stderr w)
                    (fun s => if Nat.eqb s b then "" else written w s) (S b) in
  run PluginManager empty_env Config nose_run warn munge arg kw w
  = match warn deprecation_message w1 with
    | (Raise e, w2) => (Raise e, w2)
    | (Ok _, w2) =>
        match nose_run arg kw' w2 with
        | (Ok _, w3) => print (munge (written w3 b)) w3
        | (Raise e, w3) => (Raise e, w3)
        end
    end.
Proof.
  intros Hall b kw' w1. subst kw' w1.
  unfold run, bindW at 1, new_StringIO. fold b.
  pose proof (run_keywords_buffer_all b kw) as Hb.
  assert (Hpop : fst (pop_buffer_all
                        (run_keywords PluginManager empty_env Config b kw))
                 = false).
  { unfold pop_buffer_all. cbn [fst]. rewrite Hb. now destruct Hall as [->| ->]. }
  destruct (pop_buffer_all _) as [buffer_all kw'] eqn:Epop.
  cbn [fst snd] in *. subst buffer_all.
  unfold bindW, get_stderr, get_stdout, retW, try_finally, stream_getvalue.
  destruct (warn _ _) as [[[]|e] w2]; [ | reflexivity ].
  destruct (nose_run _ _ _) as [[[]|e] w3]; reflexivity.
Qed.

(** X20: with [buffer_all] true, and so always through [run_buffered],
    [sys.stdout] and [sys.stderr] are after [run] what they were before it,
    whether [nose.run] returned or raised and whatever it did to them. *)
Theorem run_restores_standard_streams nose_run arg kw w :
  let same_streams (w' : World) :=
    sys_stdout w' = sys_stdout w /\ sys_stderr w' = sys_stderr w in
  (kw_buffer_all kw = Some true ->
   same_streams
     (snd (run PluginManager empty_env Config nose_run warn munge arg kw w)))
  /\ same_streams
       (snd (run_buffered PluginManager empty_env Config nose_run warn munge
                          arg kw w)).
Proof.
  cbv zeta.
  assert (H : forall kw0, kw_buffer_all kw0 = Some true ->
            sys_stdout (snd (run PluginManager empty_env Config nose_run
                                 warn munge arg kw0 w)) = sys_stdout w
            /\ sys_stderr (snd (run PluginManager empty_env Config nose_run
                                    warn munge arg kw0 w)) = sys_stderr w).
  { intros kw0 Hall. rewrite (run_buffer_all_eq nose_run arg kw0 w Hall).
    cbv zeta. destruct (nose_run _ _ _) as [[[]|e] w2]; now split. }
  split; [ apply H | ]. unfold run_buffered. now apply H.
Qed.

(** X21: [run] asks [nose.run] only with keywords that hold a Config whose
    stream is the buffer made for this run, an [argv], and no [buffer_all]:
    two versions of [nose.run] that agree on such keywords give the same
    [run]. *)
Theorem run_calls_nose_with_normal_kw nose_run nose_run' arg kw w :
  (forall k w', normal_kw (next_stream w) k ->
                nose_run arg k w' = nose_run' arg k w') ->
  run PluginManager empty_env Config nose_run warn munge arg kw w
  = run PluginManager empty_env Config nose_run' warn munge arg kw w.
Proof.
  intros Hsame.
  pose proof (run_keywords_normal (next_stream w) kw) as Hnormal.
  destruct (kw_buffer_all kw) as [[|]|] eqn:Hall.
  - rewrite !(run_buffer_all_eq _ arg kw w Hall). cbv zeta.
    now rewrite (Hsame _ _ Hnormal).
  - rewrite !(run_unbuffered_eq _ arg kw w (or_intror Hall)). cbv zeta.
    destruct (warn _ _) as [[[]|e] w2]; [ | reflexivity ].
    now rewrite (Hsame _ _ Hnormal).
  - rewrite !(run_unbuffered_eq _ arg kw w (or_introl Hall)). cbv zeta.
    destruct (warn _ _) as [[[]|e] w2]; [ | reflexivity ].
    now rewrite (Hsame _ _ Hnormal).
Qed.

(** X22: with [buffer_all] true, a [nose.run] that raises makes [run] raise
    the same and print nothing; one that returns makes [run] print, on the
    [sys.stdout] of before the call, the munged text of the buffer and a
    newline. *)
Theorem run_prints_munged_buffer nose_run arg kw w r w2 :
  kw_buffer_all kw = Some true ->
  let b := next_stream w in
  nose_run arg
           (snd (pop_buffer_all (run_keywords PluginManager empty_env Config b kw)))
           (mkWorld b b (fun s => if Nat.eqb s b then "" else written w s) (S b))
  = (r, w2) ->
  let after := run PluginManager empty_env Config nose_run warn munge arg kw w in
  match r with
  | Raise e =>
      fst after = Raise e /\ written (snd after) = written w2
  | Ok _ =>
      fst after = Ok tt
      /\ written (snd after) (sys_stdout w)
         = written w2 (sys_stdout w) ++ munge (written w2 b) ++ String "010" ""
      /\ forall s, s <> sys_stdout w -> written (snd after) s = written w2 s
  end.
Proof.
  intros Hall b Hrun after. subst after.
  rewrite (run_buffer_all_eq nose_run arg kw w Hall). cbv zeta.
  fold b. rewrite Hrun. destruct r as [[]|e]; [ | now split ].
  unfold print, restored. cbn [fst snd sys_stdout written].
  split; [ reflexivity | ]. split.
  - now rewrite Nat.eqb_refl.
  - intros s Hs. apply Nat.eqb_neq in Hs. now rewrite Hs.
Qed.

(** X23: without [buffer_all], [run] warns of the deprecated behaviour
    first; if the warning is raised as an error, [run] fails with it and
    [nose.run] is not called. *)
Theorem run_warning_as_error arg kw w e w2 :
  kw_buffer_all kw = None \/ kw_buffer_all kw = Some false ->
  warn deprecation_message
       (mkWorld (sys_stdout w) (sys_stderr w)
                (fun s => if Nat.eqb s (next_stream w) then "" else written w s)
                (S (next_stream w)))
  = (Raise e, w2) ->
  forall nose_run,
    run PluginManager empty_env Config nose_run warn munge arg kw w
    = (Raise e, w2).
Proof.
  intros Hall Hwarn nose_run.
  rewrite (run_unbuffered_eq nose_run arg kw w Hall). cbv zeta.
  now rewrite Hwarn.
Qed.

End RunFacts.

(** X20 at work: a run that fails and leaves both standard streams pointing
    elsewhere; they are back where they were. *)
Lemma run_restores_standard_streams_witness :
  let after :=
    snd (run_buffered (fun _ : list unit => tt) tt Sample.new_config
                      Sample.nose_run_failing Sample.warn Sample.munge
                      tt Sample.kw_plain Sample.w0) in
  sys_stdout after = 1 /\ sys_stderr after = 2.
Proof.
  exact (proj2 (@run_restores_standard_streams _ _ _ _ _
                  (fun _ : list unit => tt) tt Sample.new_config
                  Sample.warn Sample.munge
                  Sample.nose_run_failing tt Sample.kw_plain Sample.w0)).
Defined.

(** X21 at work: a [nose.run] that rejects a [buffer_all] keyword is never
    given one. *)
Lemma run_calls_nose_with_normal_kw_witness :
  run (fun _ : list unit => tt) tt Sample.new_config
      Sample.nose_run_ok Sample.warn Sample.munge tt Sample.kw_in Sample.w0
  = run (fun _ : list unit => tt) tt Sample.new_config
        Sample.nose_run_strict Sample.warn Sample.munge tt Sample.kw_in Sample.w0.
Proof.
  apply (@run_calls_nose_with_normal_kw _ _ _ _ _
           (fun _ : list unit => tt) tt Sample.new_config
           Sample.warn Sample.munge
           Sample.nose_run_ok Sample.nose_run_strict tt Sample.kw_in Sample.w0).
  intros k w' [_ [_ Hnone]]. unfold Sample.nose_run_strict. now rewrite Hnone.
Defined.

(** X22 at work: the report of a passing run is printed, stripped, on the
    standard output of the caller. *)
Lemma run_prints_munged_buffer_witness :
  let after :=
    run (fun _ : list unit => tt) tt Sample.new_config
        Sample.nose_run_ok Sample.warn Sample.munge tt Sample.kw_in Sample.w0 in
  fst after = Ok tt
  /\ written (snd after) 1 = Sample.munge Sample.report ++ Sample.nl.
Proof.
  destruct (@run_prints_munged_buffer _ _ _ _ _
              (fun _ : list unit => tt) tt Sample.new_config
              Sample.warn Sample.munge
              Sample.nose_run_ok tt Sample.kw_in Sample.w0 (Ok tt) _
              eq_refl eq_refl) as [Hok [Hout _]].
  split; [ exact Hok | exact Hout ].
Defined.

(** X23 at work: with warnings as errors, an unbuffered [run] stops at the
    warning. *)
Lemma run_warning_as_error_witness :
  run (fun _ : list unit => tt) tt Sample.new_config
      Sample.nose_run_ok Sample.warn_error Sample.munge
      tt Sample.kw_plain Sample.w0
  = (Raise (OtherError "DeprecationWarning"),
     mkWorld 1 2 (fun s => if Nat.eqb s 3 then "" else "") 4).
Proof.
  exact (@run_warning_as_error _ _ _ _ _
           (fun _ : list unit => tt) tt Sample.new_config
           Sample.warn_error Sample.munge
           tt Sample.kw_plain Sample.w0 _ _
           (or_introl eq_refl) eq_refl Sample.nose_run_ok).
Defined.

(** ** [plugintest.AccessDecorator] *)

Lemma index_self (s : string) : String.index 0 s s = Some 0.
Proof.
  destruct s as [|c s]; [ reflexivity | ].
  cbn [String.index].
  pose proof (prefix_append (String c s) "") as H.
  rewrite append_nil_r in H. now rewrite H.
Qed.

(** X24: an [AccessDecorator] holds the whole text of its stream, wherever
    the stream was positioned, and leaves the stream rewound with its text
    unchanged; the whole text is [in] the decorator. *)
Theorem AccessDecorator_holds_whole_text (s : StringIO) :
  let d := AccessDecorator_init s in
  AccessDecorator_str d = getvalue s
  /\ getvalue (stream d) = getvalue s
  /\ tell (stream d) = 0
  /\ AccessDecorator_contains d (getvalue s) = true.
Proof.
  cbv zeta. unfold AccessDecorator_init, AccessDecorator_str,
    AccessDecorator_contains, read, seek0.
  cbn [getvalue tell _buf stream]. rewrite Nat.sub_0_r, substring_all.
  repeat split. now rewrite index_self.
Qed.
